(** * Sensor drivers for the RP2040: CMPS12 compass and VEML7700 light sensor

    A shallow embedding of [src/target/standalone/src/cmps12.c] and
    [src/lib/veml7700-pico-library/VEML7700.c], and the properties of the
    two drivers that the specification states.

    Conventions.
    - C integers are [Z]; a store into a [uint8_t] or [uint16_t] object is
      written out as a reduction modulo [2^8] or [2^16]. An enumeration is
      its integer value, with the enumerators as named constants: a cast
      such as [(veml7700_it_t)((config_cache >> 6) & 0x0F)] can produce a
      value that is no enumerator, and the [default:] branches handle it.
    - [double] is Rocq's primitive binary64 float. [float] is IEEE 754
      binary32 with round-to-nearest-even, computed with the Standard
      Library's [SpecFloat] operations at precision 24.
    - A pointer argument that the code tests against NULL is an [option];
      an output cell is passed as its content and returned updated.
    - The I2C bus of the Pico SDK is not part of the repository: it is an
      interface ([I2CHardware]) whose two blocking calls return a byte count
      or a negative error code. Every bus call is recorded in the [trace]
      of the [world]; [sleep_ms] adds to [slept_ms]. *)

From Stdlib Require Import ZArith List Bool String Lia.
From Stdlib Require Import Uint63 PrimFloat SpecFloat FloatOps.
From Stdlib Require Import QArith Qround.
Import ListNotations.
Local Close Scope Q_scope.
Local Open Scope Z_scope.

(* ================================================================== *)
(** ** Integer and floating point formats *)

Definition uint8 (z : Z) : Z := z mod 256.
Definition uint16 (z : Z) : Z := z mod 65536.
(** The conversion to [int8_t]: the two's complement reading of the low
    eight bits. *)
Definition int8 (z : Z) : Z := if z mod 256 <? 128 then z mod 256 else z mod 256 - 256.

(** The C conversion of a floating value to [int]: truncation toward zero.
    NaN, the infinities and values outside the range of [int] have no
    defined result ([None]). *)
Definition int_of_float (x : spec_float) : option Z :=
  match x with
  | S754_zero _ => Some 0
  | S754_finite s m e =>
      let mag := if 0 <=? e then Z.shiftl (Z.pos m) e else Z.shiftr (Z.pos m) (- e) in
      let v := if s then - mag else mag in
      if (-2147483648 <=? v) && (v <=? 2147483647) then Some v else None
  | _ => None
  end.

Module Binary64.
(** Conversion of an unsigned integer below [2^63] to [double]. *)
Definition of_Z (z : Z) : float := PrimFloat.of_uint63 (Uint63.of_Z z).
Definition to_int (x : float) : option Z := int_of_float (Prim2SF x).
End Binary64.

Module Binary32.
Definition prec : Z := 24.
Definition emax : Z := 128.
Definition of_Z (z : Z) : spec_float := binary_normalize prec emax z 0 false.
Definition mul : spec_float -> spec_float -> spec_float := SFmul prec emax.
Definition div : spec_float -> spec_float -> spec_float := SFdiv prec emax.
Definition ltb : spec_float -> spec_float -> bool := SFltb.
Definition leb : spec_float -> spec_float -> bool := SFleb.
(** The decimal literal [n / d] for integers [n], [d] below [2^24]: both
    are exact in binary32, and the correctly rounded quotient is the float
    nearest to the decimal value, which is what the literal denotes. *)
Definition literal (n d : Z) : spec_float := div (of_Z n) (of_Z d).
End Binary32.

(* ================================================================== *)
(** ** The I2C bus of the SDK *)

(** An [i2c_inst_t *] is NULL or names one of the I2C blocks. *)
Definition i2c_inst_t : Type := Z.

Inductive i2c_event : Type :=
| I2C_write (port : option i2c_inst_t) (addr : Z) (src : list Z) (nostop : bool)
| I2C_read (port : option i2c_inst_t) (addr : Z) (len : Z) (nostop : bool).

(** What the hardware answers: the [int] result of the call (bytes
    transferred, or a negative [PICO_ERROR_*]) and, for a read, the bytes
    put into the destination buffer. *)
Class I2CHardware (HW : Type) : Type := {
  hw_write : HW -> option i2c_inst_t -> Z -> list Z -> bool -> Z * HW;
  hw_read : HW -> option i2c_inst_t -> Z -> Z -> bool -> Z * list Z * HW
}.

Record world (HW : Type) : Type := mkWorld {
  hw : HW;
  trace : list i2c_event;
  slept_ms : Z
}.
Arguments mkWorld {HW}.
Arguments hw {HW}.
Arguments trace {HW}.
Arguments slept_ms {HW}.

Section Bus.
Context {HW : Type} `{I2CHardware HW}.

Definition i2c_write_blocking (w : world HW) (port : option i2c_inst_t)
    (addr : Z) (src : list Z) (nostop : bool) : Z * world HW :=
  let '(result, h) := hw_write (hw w) port addr src nostop in
  (result, mkWorld h (trace w ++ [I2C_write port addr src nostop]) (slept_ms w)).

Definition i2c_read_blocking (w : world HW) (port : option i2c_inst_t)
    (addr : Z) (len : Z) (nostop : bool) : Z * list Z * world HW :=
  let '(result, dst, h) := hw_read (hw w) port addr len nostop in
  (result, dst, mkWorld h (trace w ++ [I2C_read port addr len nostop]) (slept_ms w)).

Definition sleep_ms (w : world HW) (ms : Z) : world HW :=
  mkWorld (hw w) (trace w) (slept_ms w + ms).

(** The world after a bus call that answered with hardware state [h]. *)
Definition after_call (w : world HW) (h : HW) (e : i2c_event) : world HW :=
  mkWorld h (trace w ++ [e]) (slept_ms w).

End Bus.

(** A scripted bus, in the manner of a unit-test double: each call takes
    the next scripted answer; an exhausted script answers
    [PICO_ERROR_GENERIC]. *)
Definition scripted_bus : Type := list (Z * list Z).

Definition PICO_ERROR_GENERIC : Z := -1.

#[export] Instance scripted_hardware : I2CHardware scripted_bus := {
  hw_write := fun script _ _ _ _ =>
    match script with
    | (result, _) :: rest => (result, rest)
    | [] => (PICO_ERROR_GENERIC, [])
    end;
  hw_read := fun script _ _ _ _ =>
    match script with
    | (result, dst) :: rest => (result, dst, rest)
    | [] => (PICO_ERROR_GENERIC, [], [])
    end
}.

Definition scripted_world (script : scripted_bus) : world scripted_bus :=
  mkWorld script [] 0.

(* ================================================================== *)
(** ** CMPS12 *)

Module CMPS12.

Definition CMPS12_ADDRESS : Z := 0x60.
Definition ANGLE_8_REG : Z := 1.

Record cmps12_t : Type := mkCompass {
  i2c : option i2c_inst_t;
  angle8 : Z;
  angle16 : Z;
  pitch : Z;
  roll : Z
}.

Definition set_i2c (v : option i2c_inst_t) (c : cmps12_t) : cmps12_t :=
  mkCompass v (angle8 c) (angle16 c) (pitch c) (roll c).
Definition set_angle8 (v : Z) (c : cmps12_t) : cmps12_t :=
  mkCompass (i2c c) v (angle16 c) (pitch c) (roll c).
Definition set_angle16 (v : Z) (c : cmps12_t) : cmps12_t :=
  mkCompass (i2c c) (angle8 c) v (pitch c) (roll c).
Definition set_pitch (v : Z) (c : cmps12_t) : cmps12_t :=
  mkCompass (i2c c) (angle8 c) (angle16 c) v (roll c).
Definition set_roll (v : Z) (c : cmps12_t) : cmps12_t :=
  mkCompass (i2c c) (angle8 c) (angle16 c) (pitch c) v.

Section Driver.
Context {HW : Type} `{I2CHardware HW}.

(** [cmps12_init]: the struct behind [compass] is dereferenced without
    a check, so it is taken by value and returned updated. *)
Definition cmps12_init (w : world HW) (compass : cmps12_t)
    (i2c : option i2c_inst_t) : bool * cmps12_t * world HW :=
  let compass := set_i2c i2c compass in
  let compass := set_angle8 0 compass in
  let compass := set_angle16 0 compass in
  let compass := set_pitch 0 compass in
  let compass := set_roll 0 compass in
  let '(result, _, w) := i2c_read_blocking w i2c CMPS12_ADDRESS 1 false in
  (0 <=? result, compass, w).

(** [cmps12_read]. The local buffer [data] is not initialized and the
    code does not compare the transfer count with 5: [stack] is the
    indeterminate content of the five bytes before the call, and a byte
    that the read did not deliver keeps it. *)
Definition cmps12_read (w : world HW) (compass : cmps12_t) (stack : list Z)
    : bool * cmps12_t * world HW :=
  let reg := ANGLE_8_REG in
  let '(result, w) :=
    i2c_write_blocking w (i2c compass) CMPS12_ADDRESS [uint8 reg] true in
  if result <? 0 then (false, compass, w)
  else
    let '(result, dst, w) :=
      i2c_read_blocking w (i2c compass) CMPS12_ADDRESS 5 false in
    if result <? 0 then (false, compass, w)
    else
      let data := fun i : nat => uint8 (nth i dst (nth i stack 0)) in
      let compass := set_angle8 (data 0%nat) compass in
      let high_byte := data 1%nat in
      let low_byte := data 2%nat in
      let compass := set_pitch (int8 (data 3%nat)) compass in
      let compass := set_roll (int8 (data 4%nat)) compass in
      let compass :=
        set_angle16 (uint16 (Z.lor (Z.shiftl high_byte 8) low_byte)) compass in
      (true, compass, w).

End Driver.

Definition directions : list string :=
  [ "N"; "NNE"; "NE"; "ENE";
    "E"; "ESE"; "SE"; "SSE";
    "S"; "SSW"; "SW"; "WSW";
    "W"; "WNW"; "NW"; "NNW" ]%string.

(** [int val = (int)((angle / 22.5) + 0.5);] with [angle] a [uint16_t]
    converted to [double]. *)
Definition cardinal_val (angle : Z) : option Z :=
  Binary64.to_int (Binary64.of_Z angle / 22.5 + 0.5)%float.

(** [directions[val % 16]]: C's [%] truncates toward zero ([Z.rem]);
    [None] when the index is outside the table or the conversion to
    [int] is undefined. *)
Definition cmps12_get_cardinal_direction (angle : Z) : option string :=
  match cardinal_val angle with
  | Some val =>
      let idx := Z.rem val 16 in
      if idx <? 0 then None else nth_error directions (Z.to_nat idx)
  | None => None
  end.

(** The specification's reading of the mapping, in exact rational
    arithmetic: the point at index [round(angle / 22.5) mod 16], with
    [round x] the integer nearest to [x], [floor (x + 1/2)]. *)
Definition spec_round (angle : Z) : Z :=
  Qfloor (inject_Z angle / (45 # 2) + (1 # 2))%Q.
Definition spec_direction (angle : Z) : option string :=
  nth_error directions (Z.to_nat (spec_round angle mod 16)).

End CMPS12.

(* ================================================================== *)
(** ** VEML7700 *)

Module VEML7700.

Definition VEML7700_I2C_ADDRESS : Z := 0x10.
Definition VEML7700_REG_ALS_CONF : Z := 0x00.
Definition VEML7700_REG_ALS_WH : Z := 0x01.
Definition VEML7700_REG_ALS_WL : Z := 0x02.
Definition VEML7700_REG_POWER_SAVING : Z := 0x03.
Definition VEML7700_REG_ALS : Z := 0x04.
Definition VEML7700_REG_WHITE : Z := 0x05.
Definition VEML7700_REG_ALS_INT : Z := 0x06.
Definition VEML7700_REG_ID : Z := 0x07.

Definition veml7700_gain_t : Type := Z.
Definition VEML7700_GAIN_1 : veml7700_gain_t := 0.
Definition VEML7700_GAIN_2 : veml7700_gain_t := 1.
Definition VEML7700_GAIN_1_8 : veml7700_gain_t := 2.
Definition VEML7700_GAIN_1_4 : veml7700_gain_t := 3.

Definition veml7700_it_t : Type := Z.
Definition VEML7700_IT_25MS : veml7700_it_t := 12.
Definition VEML7700_IT_50MS : veml7700_it_t := 8.
Definition VEML7700_IT_100MS : veml7700_it_t := 0.
Definition VEML7700_IT_200MS : veml7700_it_t := 1.
Definition VEML7700_IT_400MS : veml7700_it_t := 2.
Definition VEML7700_IT_800MS : veml7700_it_t := 3.

Definition veml7700_pers_t : Type := Z.
Definition VEML7700_PERS_1 : veml7700_pers_t := 0.
Definition VEML7700_PERS_2 : veml7700_pers_t := 1.
Definition VEML7700_PERS_4 : veml7700_pers_t := 2.
Definition VEML7700_PERS_8 : veml7700_pers_t := 3.

Definition veml7700_psm_t : Type := Z.
Definition VEML7700_PSM_1 : veml7700_psm_t := 0.
Definition VEML7700_PSM_2 : veml7700_psm_t := 1.
Definition VEML7700_PSM_3 : veml7700_psm_t := 2.
Definition VEML7700_PSM_4 : veml7700_psm_t := 3.

Definition VEML7700_OK : Z := 0.
Definition VEML7700_ERROR_INIT : Z := -1.
Definition VEML7700_ERROR_I2C_TX : Z := -2.
Definition VEML7700_ERROR_I2C_RX : Z := -3.
Definition VEML7700_ERROR_CONFIG : Z := -4.
Definition VEML7700_ERROR_INVALID_ARG : Z := -5.

Record veml7700_sensor_t : Type := mkSensor {
  i2c_port : option i2c_inst_t;
  config_cache : Z;
  psm_cache : Z;
  initialized : bool;
  current_gain : veml7700_gain_t;
  current_it : veml7700_it_t
}.

Definition set_i2c_port (v : option i2c_inst_t) (s : veml7700_sensor_t) :=
  mkSensor v (config_cache s) (psm_cache s) (initialized s) (current_gain s) (current_it s).
Definition set_config_cache (v : Z) (s : veml7700_sensor_t) :=
  mkSensor (i2c_port s) v (psm_cache s) (initialized s) (current_gain s) (current_it s).
Definition set_psm_cache (v : Z) (s : veml7700_sensor_t) :=
  mkSensor (i2c_port s) (config_cache s) v (initialized s) (current_gain s) (current_it s).
Definition set_initialized (v : bool) (s : veml7700_sensor_t) :=
  mkSensor (i2c_port s) (config_cache s) (psm_cache s) v (current_gain s) (current_it s).
Definition set_current_gain (v : veml7700_gain_t) (s : veml7700_sensor_t) :=
  mkSensor (i2c_port s) (config_cache s) (psm_cache s) (initialized s) v (current_it s).
Definition set_current_it (v : veml7700_it_t) (s : veml7700_sensor_t) :=
  mkSensor (i2c_port s) (config_cache s) (psm_cache s) (initialized s) (current_gain s) v.

(** [!sensor || !sensor->initialized] *)
Definition not_ready (sensor : option veml7700_sensor_t) : bool :=
  match sensor with
  | None => true
  | Some s => negb (initialized s)
  end.

(** *** Resolution *)

(** The two [switch] statements of [veml7700_get_resolution], each with
    its [default:] branch: the gain factor and the integration time in
    milliseconds as [float] values. *)
Definition gain_val (gain : veml7700_gain_t) : spec_float :=
  if gain =? VEML7700_GAIN_1_8 then Binary32.literal 125 1000
  else if gain =? VEML7700_GAIN_1_4 then Binary32.literal 25 100
  else if gain =? VEML7700_GAIN_1 then Binary32.of_Z 1
  else if gain =? VEML7700_GAIN_2 then Binary32.of_Z 2
  else Binary32.of_Z 1.

Definition it_val (it : veml7700_it_t) : spec_float :=
  if it =? VEML7700_IT_25MS then Binary32.of_Z 25
  else if it =? VEML7700_IT_50MS then Binary32.of_Z 50
  else if it =? VEML7700_IT_100MS then Binary32.of_Z 100
  else if it =? VEML7700_IT_200MS then Binary32.of_Z 200
  else if it =? VEML7700_IT_400MS then Binary32.of_Z 400
  else if it =? VEML7700_IT_800MS then Binary32.of_Z 800
  else Binary32.of_Z 100.

(** [0.0042f] and [2.1504f] *)
Definition resolution_min : spec_float := Binary32.literal 42 10000.
Definition resolution_max : spec_float := Binary32.literal 21504 10000.

Definition veml7700_get_resolution (gain : veml7700_gain_t) (it : veml7700_it_t)
    : spec_float :=
  let base_resolution_at_ref := Binary32.literal 42 10000 in
  let ref_gain_val := Binary32.of_Z 2 in
  let ref_it_val := Binary32.of_Z 800 in
  let resolution :=
    Binary32.mul
      (Binary32.mul base_resolution_at_ref (Binary32.div ref_gain_val (gain_val gain)))
      (Binary32.div ref_it_val (it_val it)) in
  let resolution :=
    if Binary32.ltb resolution_max resolution then resolution_max else resolution in
  let resolution :=
    if Binary32.ltb resolution resolution_min then resolution_min else resolution in
  resolution.

(** The order the specification speaks of, read off the names of the
    enumerators in [VEML7700.h]: the gain factor in eighths (x1/8, x1/4,
    x1, x2) and the integration time in milliseconds. *)
Definition spec_gain_eighths (gain : veml7700_gain_t) : Z :=
  if gain =? VEML7700_GAIN_1_8 then 1
  else if gain =? VEML7700_GAIN_1_4 then 2
  else if gain =? VEML7700_GAIN_1 then 8
  else if gain =? VEML7700_GAIN_2 then 16
  else 0.

Definition spec_integration_ms (it : veml7700_it_t) : Z :=
  if it =? VEML7700_IT_25MS then 25
  else if it =? VEML7700_IT_50MS then 50
  else if it =? VEML7700_IT_100MS then 100
  else if it =? VEML7700_IT_200MS then 200
  else if it =? VEML7700_IT_400MS then 400
  else if it =? VEML7700_IT_800MS then 800
  else 0.

Definition valid_gains : list veml7700_gain_t :=
  [VEML7700_GAIN_1; VEML7700_GAIN_2; VEML7700_GAIN_1_8; VEML7700_GAIN_1_4].
Definition valid_its : list veml7700_it_t :=
  [VEML7700_IT_25MS; VEML7700_IT_50MS; VEML7700_IT_100MS;
   VEML7700_IT_200MS; VEML7700_IT_400MS; VEML7700_IT_800MS].

(** *** Register transport and driver operations *)

Section Driver.
Context {HW : Type} `{I2CHardware HW}.

Definition veml7700_write_reg (w : world HW) (sensor : option veml7700_sensor_t)
    (reg data : Z) : Z * world HW :=
  match sensor with
  | None => (VEML7700_ERROR_CONFIG, w)
  | Some s =>
      if negb (initialized s) then (VEML7700_ERROR_CONFIG, w)
      else
        let buffer :=
          [uint8 reg; uint8 (Z.land data 0xFF); uint8 (Z.land (Z.shiftr data 8) 0xFF)] in
        let '(result, w) :=
          i2c_write_blocking w (i2c_port s) VEML7700_I2C_ADDRESS buffer false in
        if result <? 0 then (VEML7700_ERROR_I2C_TX, w)
        else if negb (result =? 3) then (VEML7700_ERROR_I2C_TX, w)
        else (VEML7700_OK, w)
  end.

(** [data] is the content of the cell behind the output pointer, [None]
    for a NULL pointer; the cell is returned, rewritten on success. *)
Definition veml7700_read_reg (w : world HW) (sensor : option veml7700_sensor_t)
    (reg : Z) (data : option Z) : Z * option Z * world HW :=
  match sensor with
  | None => (VEML7700_ERROR_CONFIG, data, w)
  | Some s =>
      if negb (initialized s) then (VEML7700_ERROR_CONFIG, data, w)
      else
        match data with
        | None => (VEML7700_ERROR_INVALID_ARG, data, w)
        | Some _ =>
            let '(result, w) :=
              i2c_write_blocking w (i2c_port s) VEML7700_I2C_ADDRESS [uint8 reg] true in
            if result <? 0 then (VEML7700_ERROR_I2C_TX, data, w)
            else if negb (result =? 1) then (VEML7700_ERROR_I2C_TX, data, w)
            else
              let '(result, dst, w) :=
                i2c_read_blocking w (i2c_port s) VEML7700_I2C_ADDRESS 2 false in
              if result <? 0 then (VEML7700_ERROR_I2C_RX, data, w)
              else if negb (result =? 2) then (VEML7700_ERROR_I2C_RX, data, w)
              else
                let buffer0 := uint8 (nth 0 dst 0) in
                let buffer1 := uint8 (nth 1 dst 0) in
                (VEML7700_OK, Some (uint16 (Z.lor (Z.shiftl buffer1 8) buffer0)), w)
        end
  end.

(** The local [device_id] is read only after a successful register
    read has written it; its initial content is immaterial. *)
Definition veml7700_init (w : world HW) (sensor : option veml7700_sensor_t)
    (i2c_port : option i2c_inst_t) (sda_pin scl_pin baudrate : Z)
    : Z * option veml7700_sensor_t * world HW :=
  match sensor, i2c_port with
  | Some s, Some _ =>
      let s := set_i2c_port i2c_port s in
      let s := set_initialized false s in
      let s := set_initialized true s in
      let '(status, device_id, w) :=
        veml7700_read_reg w (Some s) VEML7700_REG_ID (Some 0) in
      let device_id := match device_id with Some v => v | None => 0 end in
      if negb (status =? VEML7700_OK) then
        (VEML7700_ERROR_INIT, Some (set_initialized false s), w)
      else if negb (Z.land device_id 0xFF =? 0x81)
              && negb (Z.shiftr device_id 8 =? 0x28) then
        (VEML7700_ERROR_INIT, Some (set_initialized false s), w)
      else
        let s := set_current_gain VEML7700_GAIN_1 s in
        let s := set_current_it VEML7700_IT_100MS s in
        let s :=
          set_config_cache
            (uint16 (Z.lor (Z.lor (Z.lor (Z.lor (Z.shiftl (current_gain s) 11)
                                                (Z.shiftl (current_it s) 6))
                                         (Z.shiftl VEML7700_PERS_1 4))
                                  (Z.shiftl 0 1))
                           (Z.shiftl 0 0))) s in
        let '(status, w) :=
          veml7700_write_reg w (Some s) VEML7700_REG_ALS_CONF (config_cache s) in
        if negb (status =? VEML7700_OK) then
          (status, Some (set_initialized false s), w)
        else
          let s := set_psm_cache 0x0000 s in
          let '(status, w) :=
            veml7700_write_reg w (Some s) VEML7700_REG_POWER_SAVING (psm_cache s) in
          if negb (status =? VEML7700_OK) then
            (status, Some (set_initialized false s), w)
          else
            let '(status, w) :=
              veml7700_write_reg w (Some s) VEML7700_REG_ALS_WH 0xFFFF in
            if negb (status =? VEML7700_OK) then
              (status, Some (set_initialized false s), w)
            else
              let '(status, w) :=
                veml7700_write_reg w (Some s) VEML7700_REG_ALS_WL 0x0000 in
              if negb (status =? VEML7700_OK) then
                (status, Some (set_initialized false s), w)
              else
                let w := sleep_ms w 10 in
                (VEML7700_OK, Some (set_initialized true s), w)
  | _, _ => (VEML7700_ERROR_INVALID_ARG, sensor, w)
  end.

Definition veml7700_read_als (w : world HW) (sensor : option veml7700_sensor_t)
    (als_value : option Z) : Z * option Z * world HW :=
  if not_ready sensor then (VEML7700_ERROR_CONFIG, als_value, w)
  else match als_value with
       | None => (VEML7700_ERROR_INVALID_ARG, als_value, w)
       | Some _ => veml7700_read_reg w sensor VEML7700_REG_ALS als_value
       end.

Definition veml7700_read_white (w : world HW) (sensor : option veml7700_sensor_t)
    (white_value : option Z) : Z * option Z * world HW :=
  if not_ready sensor then (VEML7700_ERROR_CONFIG, white_value, w)
  else match white_value with
       | None => (VEML7700_ERROR_INVALID_ARG, white_value, w)
       | Some _ => veml7700_read_reg w sensor VEML7700_REG_WHITE white_value
       end.

(** [&sensor->config_cache] is the output cell of the second register
    read: the cell's content is stored back into the handle. The local
    [als_raw] is read only after [veml7700_read_als] has written it. *)
Definition veml7700_read_lux (w : world HW) (sensor : option veml7700_sensor_t)
    (lux_value : option spec_float)
    : Z * option veml7700_sensor_t * option spec_float * world HW :=
  match sensor with
  | None => (VEML7700_ERROR_CONFIG, sensor, lux_value, w)
  | Some s =>
      if negb (initialized s) then (VEML7700_ERROR_CONFIG, sensor, lux_value, w)
      else
        match lux_value with
        | None => (VEML7700_ERROR_INVALID_ARG, sensor, lux_value, w)
        | Some _ =>
            let '(status, als_raw, w) := veml7700_read_als w (Some s) (Some 0) in
            let als_raw := match als_raw with Some v => v | None => 0 end in
            if negb (status =? VEML7700_OK) then
              (status, Some s, Some (Binary32.of_Z (-1)), w)
            else
              let '(status, cell, w) :=
                veml7700_read_reg w (Some s) VEML7700_REG_ALS_CONF
                                  (Some (config_cache s)) in
              let s :=
                match cell with Some v => set_config_cache v s | None => s end in
              if negb (status =? VEML7700_OK) then
                (status, Some s, Some (Binary32.of_Z (-1)), w)
              else
                let s :=
                  set_current_gain (Z.land (Z.shiftr (config_cache s) 11) 0x03) s in
                let s :=
                  set_current_it (Z.land (Z.shiftr (config_cache s) 6) 0x0F) s in
                let gain := current_gain s in
                let it := current_it s in
                let resolution := veml7700_get_resolution gain it in
                (VEML7700_OK, Some s,
                 Some (Binary32.mul (Binary32.of_Z als_raw) resolution), w)
        end
  end.

Definition veml7700_set_gain (w : world HW) (sensor : option veml7700_sensor_t)
    (gain : veml7700_gain_t) : Z * option veml7700_sensor_t * world HW :=
  match sensor with
  | None => (VEML7700_ERROR_CONFIG, sensor, w)
  | Some s =>
      if negb (initialized s) then (VEML7700_ERROR_CONFIG, sensor, w)
      else
        let s :=
          set_config_cache
            (uint16 (Z.land (config_cache s) (Z.lnot (Z.shiftl (uint16 3) 11)))) s in
        let s :=
          set_config_cache
            (uint16 (Z.lor (config_cache s) (Z.shiftl (uint16 gain) 11))) s in
        let '(status, w) :=
          veml7700_write_reg w (Some s) VEML7700_REG_ALS_CONF (config_cache s) in
        if status =? VEML7700_OK then (status, Some (set_current_gain gain s), w)
        else (status, Some s, w)
  end.

Definition veml7700_set_integration_time (w : world HW)
    (sensor : option veml7700_sensor_t) (it : veml7700_it_t)
    : Z * option veml7700_sensor_t * world HW :=
  match sensor with
  | None => (VEML7700_ERROR_CONFIG, sensor, w)
  | Some s =>
      if negb (initialized s) then (VEML7700_ERROR_CONFIG, sensor, w)
      else
        let s :=
          set_config_cache
            (uint16 (Z.land (config_cache s) (Z.lnot (Z.shiftl (uint16 15) 6)))) s in
        let s :=
          set_config_cache
            (uint16 (Z.lor (config_cache s) (Z.shiftl (uint16 it) 6))) s in
        let '(status, w) :=
          veml7700_write_reg w (Some s) VEML7700_REG_ALS_CONF (config_cache s) in
        if status =? VEML7700_OK then (status, Some (set_current_it it s), w)
        else (status, Some s, w)
  end.

Definition veml7700_set_persistence (w : world HW)
    (sensor : option veml7700_sensor_t) (pers : veml7700_pers_t)
    : Z * option veml7700_sensor_t * world HW :=
  match sensor with
  | None => (VEML7700_ERROR_CONFIG, sensor, w)
  | Some s =>
      if negb (initialized s) then (VEML7700_ERROR_CONFIG, sensor, w)
      else
        let s :=
          set_config_cache
            (uint16 (Z.land (config_cache s) (Z.lnot (Z.shiftl (uint16 3) 4)))) s in
        let s :=
          set_config_cache
            (uint16 (Z.lor (config_cache s) (Z.shiftl (uint16 pers) 4))) s in
        let '(status, w) :=
          veml7700_write_reg w (Some s) VEML7700_REG_ALS_CONF (config_cache s) in
        (status, Some s, w)
  end.

Definition veml7700_enable_interrupt (w : world HW)
    (sensor : option veml7700_sensor_t) (enable : bool)
    : Z * option veml7700_sensor_t * world HW :=
  match sensor with
  | None => (VEML7700_ERROR_CONFIG, sensor, w)
  | Some s =>
      if negb (initialized s) then (VEML7700_ERROR_CONFIG, sensor, w)
      else
        let s :=
          if enable then
            set_config_cache (uint16 (Z.lor (config_cache s) (Z.shiftl 1 1))) s
          else
            set_config_cache
              (uint16 (Z.land (config_cache s) (Z.lnot (Z.shiftl 1 1)))) s in
        let '(status, w) :=
          veml7700_write_reg w (Some s) VEML7700_REG_ALS_CONF (config_cache s) in
        (status, Some s, w)
  end.

Definition veml7700_set_high_threshold (w : world HW)
    (sensor : option veml7700_sensor_t) (threshold : Z)
    : Z * option veml7700_sensor_t * world HW :=
  if not_ready sensor then (VEML7700_ERROR_CONFIG, sensor, w)
  else
    let '(status, w) :=
      veml7700_write_reg w sensor VEML7700_REG_ALS_WH (uint16 threshold) in
    (status, sensor, w).

Definition veml7700_set_low_threshold (w : world HW)
    (sensor : option veml7700_sensor_t) (threshold : Z)
    : Z * option veml7700_sensor_t * world HW :=
  if not_ready sensor then (VEML7700_ERROR_CONFIG, sensor, w)
  else
    let '(status, w) :=
      veml7700_write_reg w sensor VEML7700_REG_ALS_WL (uint16 threshold) in
    (status, sensor, w).

Definition veml7700_read_interrupt_status (w : world HW)
    (sensor : option veml7700_sensor_t) (interrupt_status : option Z)
    : Z * option Z * world HW :=
  if not_ready sensor then (VEML7700_ERROR_CONFIG, interrupt_status, w)
  else match interrupt_status with
       | None => (VEML7700_ERROR_INVALID_ARG, interrupt_status, w)
       | Some _ => veml7700_read_reg w sensor VEML7700_REG_ALS_INT interrupt_status
       end.

Definition veml7700_enable_power_saving (w : world HW)
    (sensor : option veml7700_sensor_t) (enable : bool)
    : Z * option veml7700_sensor_t * world HW :=
  match sensor with
  | None => (VEML7700_ERROR_CONFIG, sensor, w)
  | Some s =>
      if negb (initialized s) then (VEML7700_ERROR_CONFIG, sensor, w)
      else
        let s :=
          if enable then
            set_psm_cache (uint16 (Z.lor (psm_cache s) (Z.shiftl 1 0))) s
          else
            set_psm_cache (uint16 (Z.land (psm_cache s) (Z.lnot (Z.shiftl 1 0)))) s in
        let '(status, w) :=
          veml7700_write_reg w (Some s) VEML7700_REG_POWER_SAVING (psm_cache s) in
        (status, Some s, w)
  end.

Definition veml7700_set_power_saving_mode (w : world HW)
    (sensor : option veml7700_sensor_t) (psm : veml7700_psm_t)
    : Z * option veml7700_sensor_t * world HW :=
  match sensor with
  | None => (VEML7700_ERROR_CONFIG, sensor, w)
  | Some s =>
      if negb (initialized s) then (VEML7700_ERROR_CONFIG, sensor, w)
      else
        let s :=
          set_psm_cache
            (uint16 (Z.land (psm_cache s) (Z.lnot (Z.shiftl (uint16 3) 1)))) s in
        let s :=
          set_psm_cache (uint16 (Z.lor (psm_cache s) (Z.shiftl (uint16 psm) 1))) s in
        let '(status, w) :=
          veml7700_write_reg w (Some s) VEML7700_REG_POWER_SAVING (psm_cache s) in
        (status, Some s, w)
  end.

Definition veml7700_power_on (w : world HW) (sensor : option veml7700_sensor_t)
    : Z * option veml7700_sensor_t * world HW :=
  match sensor with
  | None => (VEML7700_ERROR_CONFIG, sensor, w)
  | Some s =>
      if negb (initialized s) then (VEML7700_ERROR_CONFIG, sensor, w)
      else
        let s :=
          set_config_cache
            (uint16 (Z.land (config_cache s) (Z.lnot (Z.shiftl 1 0)))) s in
        let '(status, w) :=
          veml7700_write_reg w (Some s) VEML7700_REG_ALS_CONF (config_cache s) in
        if status =? VEML7700_OK then (status, Some s, sleep_ms w 10)
        else (status, Some s, w)
  end.

Definition veml7700_shutdown (w : world HW) (sensor : option veml7700_sensor_t)
    : Z * option veml7700_sensor_t * world HW :=
  match sensor with
  | None => (VEML7700_ERROR_CONFIG, sensor, w)
  | Some s =>
      if negb (initialized s) then (VEML7700_ERROR_CONFIG, sensor, w)
      else
        let s := set_config_cache (uint16 (Z.lor (config_cache s) (Z.shiftl 1 0))) s in
        let '(status, w) :=
          veml7700_write_reg w (Some s) VEML7700_REG_ALS_CONF (config_cache s) in
        (status, Some s, w)
  end.

Definition veml7700_read_device_id (w : world HW)
    (sensor : option veml7700_sensor_t) (device_id : option Z)
    : Z * option Z * world HW :=
  if not_ready sensor then (VEML7700_ERROR_CONFIG, device_id, w)
  else match device_id with
       | None => (VEML7700_ERROR_INVALID_ARG, device_id, w)
       | Some _ => veml7700_read_reg w sensor VEML7700_REG_ID device_id
       end.

(** *** The public operations on an existing handle, as one type *)

Inductive veml7700_call : Type :=
| Call_read_als (als_value : option Z)
| Call_read_white (white_value : option Z)
| Call_read_lux (lux_value : option spec_float)
| Call_set_gain (gain : veml7700_gain_t)
| Call_set_integration_time (it : veml7700_it_t)
| Call_set_persistence (pers : veml7700_pers_t)
| Call_enable_interrupt (enable : bool)
| Call_set_high_threshold (threshold : Z)
| Call_set_low_threshold (threshold : Z)
| Call_read_interrupt_status (interrupt_status : option Z)
| Call_enable_power_saving (enable : bool)
| Call_set_power_saving_mode (psm : veml7700_psm_t)
| Call_power_on
| Call_shutdown
| Call_read_device_id (device_id : option Z).

(** Status, handle and world after a call; the output cell is dropped. *)
Definition veml7700_invoke (w : world HW) (sensor : option veml7700_sensor_t)
    (c : veml7700_call) : Z * option veml7700_sensor_t * world HW :=
  let on_cell {A} (r : Z * option A * world HW) :=
    let '(status, _, w) := r in (status, sensor, w) in
  match c with
  | Call_read_als v => on_cell (veml7700_read_als w sensor v)
  | Call_read_white v => on_cell (veml7700_read_white w sensor v)
  | Call_read_lux v =>
      let '(status, sensor, _, w) := veml7700_read_lux w sensor v in (status, sensor, w)
  | Call_set_gain gain => veml7700_set_gain w sensor gain
  | Call_set_integration_time it => veml7700_set_integration_time w sensor it
  | Call_set_persistence pers => veml7700_set_persistence w sensor pers
  | Call_enable_interrupt enable => veml7700_enable_interrupt w sensor enable
  | Call_set_high_threshold t => veml7700_set_high_threshold w sensor t
  | Call_set_low_threshold t => veml7700_set_low_threshold w sensor t
  | Call_read_interrupt_status v => on_cell (veml7700_read_interrupt_status w sensor v)
  | Call_enable_power_saving enable => veml7700_enable_power_saving w sensor enable
  | Call_set_power_saving_mode psm => veml7700_set_power_saving_mode w sensor psm
  | Call_power_on => veml7700_power_on w sensor
  | Call_shutdown => veml7700_shutdown w sensor
  | Call_read_device_id v => on_cell (veml7700_read_device_id w sensor v)
  end.

End Driver.

(** The field of the configuration register that a setter rewrites, from
    the masks of the four setters: lowest bit, width and new value. *)
Definition config_field (c : veml7700_call) : option (Z * Z * Z) :=
  match c with
  | Call_set_gain gain => Some (11, 2, gain)
  | Call_set_integration_time it => Some (6, 4, it)
  | Call_set_persistence pers => Some (4, 2, pers)
  | Call_enable_interrupt enable => Some (1, 1, if enable then 1 else 0)
  | _ => None
  end.

(** The bit of the configuration register that [veml7700_power_on] clears
    and [veml7700_shutdown] sets, beside the fields of [config_field]. *)
Definition shadow_field (c : veml7700_call) : option (Z * Z * Z) :=
  match c with
  | Call_power_on => Some (0, 1, 0)
  | Call_shutdown => Some (0, 1, 1)
  | _ => config_field c
  end.

(** The field of the power-saving register that a call rewrites. *)
Definition psm_field (c : veml7700_call) : option (Z * Z * Z) :=
  match c with
  | Call_enable_power_saving enable => Some (0, 1, if enable then 1 else 0)
  | Call_set_power_saving_mode psm => Some (1, 2, psm)
  | _ => None
  end.

(** The cached gain and integration time agree with the shadow of the
    configuration register, read the way [veml7700_read_lux] decodes it. *)
Definition shadow_consistent (s : veml7700_sensor_t) : Prop :=
  current_gain s = Z.land (Z.shiftr (config_cache s) 11) 0x03
  /\ current_it s = Z.land (Z.shiftr (config_cache s) 6) 0x0F.

(** The arguments of a call are enumerators of their type (for the
    integration time: fit its 4-bit field). *)
Definition valid_arguments (c : veml7700_call) : Prop :=
  match c with
  | Call_set_gain gain => 0 <= gain < 4
  | Call_set_integration_time it => 0 <= it < 16
  | Call_set_persistence pers => 0 <= pers < 4
  | Call_set_power_saving_mode psm => 0 <= psm < 4
  | _ => True
  end.

(** The calls that pass a NULL output pointer. *)
Definition null_output (c : veml7700_call) : bool :=
  match c with
  | Call_read_als None | Call_read_white None | Call_read_lux None
  | Call_read_interrupt_status None | Call_read_device_id None => true
  | _ => false
  end.

(** The three bytes of a register write: register, low byte, high byte. *)
Definition write_frame (reg data : Z) : list Z :=
  [uint8 reg; uint8 (Z.land data 0xFF); uint8 (Z.land (Z.shiftr data 8) 0xFF)].

(** An initialized handle on bus 0 with the default configuration. *)
Definition ready_sensor : veml7700_sensor_t :=
  mkSensor (Some 0) 0 0 true VEML7700_GAIN_1 VEML7700_IT_100MS.

End VEML7700.

(* ================================================================== *)
(** ** Checking a predicate on every [k]-bit integer *)

(** [forall_bits k base p] evaluates [p] on the [2^k] integers whose bits
    above the low [k] are those of [base]. *)
Fixpoint forall_bits (k : nat) (base : Z) (p : Z -> bool) : bool :=
  match k with
  | O => p base
  | S k' => forall_bits k' (2 * base) p && forall_bits k' (2 * base + 1) p
  end.

Lemma forall_bits_sound (k : nat) :
  forall (base : Z) (p : Z -> bool),
    forall_bits k base p = true ->
    forall a, base * 2 ^ Z.of_nat k <= a < (base + 1) * 2 ^ Z.of_nat k -> p a = true.
Proof.
  induction k as [|k IH]; intros base p Hall a Ha.
  - simpl in Ha. replace a with base by lia. exact Hall.
  - simpl in Hall. apply andb_prop in Hall. destruct Hall as [Hlo Hhi].
    rewrite Nat2Z.inj_succ, Z.pow_succ_r in Ha by lia.
    assert (Hpos : 0 < 2 ^ Z.of_nat k) by (apply Z.pow_pos_nonneg; lia).
    destruct (Z_lt_le_dec a ((2 * base + 1) * 2 ^ Z.of_nat k)) as [Hlt|Hge].
    + apply (IH (2 * base) p Hlo). nia.
    + apply (IH (2 * base + 1) p Hhi). nia.
Qed.

Lemma forall_uint16 (p : Z -> bool) :
  forall_bits 16 0 p = true -> forall a, 0 <= a < 65536 -> p a = true.
Proof.
  intros Hall a Ha. apply (forall_bits_sound 16 0 p Hall).
  change (2 ^ Z.of_nat 16) with 65536. lia.
Qed.

(* ================================================================== *)
(** ** CMPS12: properties *)

Module CMPS12_Properties.
Import CMPS12.

Lemma spec_round_eq (angle : Z) : spec_round angle = (4 * angle + 45) / 90.
Proof.
  unfold spec_round, Qfloor, Qplus, Qdiv, Qmult, Qinv, inject_Z.
  cbn -[Z.mul Z.add Z.div]. f_equal. lia.
Qed.

Lemma spec_round_nonneg (angle : Z) : 0 <= angle -> 0 <= spec_round angle.
Proof. intros Ha. rewrite spec_round_eq. apply Z.div_pos; lia. Qed.

(** [angle / 22.5] is never half-way between two integers, so the
    rounding direction at a tie plays no part. *)
Lemma spec_round_no_tie (angle : Z) :
  ~ (inject_Z (spec_round angle) == inject_Z angle / (45 # 2) + (1 # 2))%Q.
Proof.
  rewrite spec_round_eq. unfold Qeq, Qplus, Qdiv, Qmult, Qinv, inject_Z.
  cbn -[Z.mul Z.add Z.div]. intros Heq.
  pose proof (Z.div_mod (4 * angle + 45) 90 ltac:(lia)) as Hdm.
  pose proof (Z.mod_pos_bound (4 * angle + 45) 90 ltac:(lia)) as Hb.
  lia.
Qed.

(** The binary64 computation of [val] agrees with exact arithmetic on
    every [uint16_t] argument. *)
Lemma cardinal_val_exact (angle : Z) :
  0 <= angle < 65536 -> cardinal_val angle = Some ((4 * angle + 45) / 90).
Proof.
  intros Ha.
  assert (Hall : forall_bits 16 0
            (fun a => match cardinal_val a with
                      | Some v => v =? (4 * a + 45) / 90
                      | None => false
                      end) = true) by (vm_compute; reflexivity).
  pose proof (forall_uint16 _ Hall angle Ha) as Hp. cbv beta in Hp.
  destruct (cardinal_val angle) as [v|]; [|discriminate].
  apply Z.eqb_eq in Hp. now subst.
Qed.

Lemma direction_of_index (idx : Z) :
  0 <= idx < 16 -> exists d, nth_error directions (Z.to_nat idx) = Some d /\ In d directions.
Proof.
  intros Hi.
  assert (Hlt : (Z.to_nat idx < List.length directions)%nat) by (simpl; lia).
  destruct (nth_error directions (Z.to_nat idx)) as [d|] eqn:E.
  - exists d. split; [reflexivity|]. eapply nth_error_In; eauto.
  - apply nth_error_None in E. lia.
Qed.

Lemma cardinal_direction_exact (angle : Z) :
  0 <= angle < 65536 -> cmps12_get_cardinal_direction angle = spec_direction angle.
Proof.
  intros Ha. unfold cmps12_get_cardinal_direction, spec_direction.
  rewrite (cardinal_val_exact angle Ha), <- spec_round_eq. cbv zeta.
  pose proof (spec_round_nonneg angle (proj1 Ha)) as Hv.
  rewrite Z.rem_mod_nonneg by lia.
  pose proof (Z.mod_pos_bound (spec_round angle) 16 ltac:(lia)) as Hb.
  destruct (Z.ltb_spec (spec_round angle mod 16) 0); [lia|reflexivity].
Qed.

(** C7. For every integer angle from 0 to 359 degrees the function
    returns a compass point, the one at index [round(angle / 22.5) mod 16]
    of the 16-entry table N, NNE, NE, ENE, E, ESE, SE, SSE, S, SSW, SW,
    WSW, W, WNW, NW, NNW, the rounding being taken in exact arithmetic. *)
Theorem cardinal_direction_rounds_to_nearest_point (angle : Z) :
  0 <= angle <= 359 ->
  cmps12_get_cardinal_direction angle
  = nth_error [ "N"; "NNE"; "NE"; "ENE"; "E"; "ESE"; "SE"; "SSE";
                "S"; "SSW"; "SW"; "WSW"; "W"; "WNW"; "NW"; "NNW" ]%string
              (Z.to_nat (spec_round angle mod 16))
  /\ exists d, cmps12_get_cardinal_direction angle = Some d.
Proof.
  intros Ha.
  assert (Hexact : cmps12_get_cardinal_direction angle = spec_direction angle)
    by (apply cardinal_direction_exact; lia).
  split.
  - rewrite Hexact. reflexivity.
  - rewrite Hexact. unfold spec_direction.
    destruct (direction_of_index (spec_round angle mod 16)) as [d [Hd _]].
    + apply Z.mod_pos_bound. lia.
    + exists d. exact Hd.
Qed.

Lemma cardinal_direction_rounds_to_nearest_point_witness :
  0 <= 359 <= 359
  /\ cmps12_get_cardinal_direction 359
     = nth_error [ "N"; "NNE"; "NE"; "ENE"; "E"; "ESE"; "SE"; "SSE";
                   "S"; "SSW"; "SW"; "WSW"; "W"; "WNW"; "NW"; "NNW" ]%string
                 (Z.to_nat (spec_round 359 mod 16))
  /\ exists d, cmps12_get_cardinal_direction 359 = Some d.
Proof.
  split; [lia|]. apply (cardinal_direction_rounds_to_nearest_point 359). lia.
Defined.

(** C9. The function is total on [uint16_t]: the conversion to [int] is
    defined, the index [val % 16] lies in 0..15, and one of the 16
    direction strings is returned. *)
Theorem cardinal_direction_total (angle : Z) :
  0 <= angle < 65536 ->
  exists val d,
    cardinal_val angle = Some val
    /\ 0 <= Z.rem val 16 <= 15
    /\ nth_error directions (Z.to_nat (Z.rem val 16)) = Some d
    /\ cmps12_get_cardinal_direction angle = Some d
    /\ In d directions.
Proof.
  intros Ha.
  pose proof (cardinal_val_exact angle Ha) as Hval.
  assert (Hv : 0 <= (4 * angle + 45) / 90) by (apply Z.div_pos; lia).
  set (val := (4 * angle + 45) / 90) in *.
  assert (Hidx : 0 <= Z.rem val 16 < 16).
  { rewrite Z.rem_mod_nonneg by lia. apply Z.mod_pos_bound. lia. }
  destruct (direction_of_index _ Hidx) as [d [Hd Hin]].
  exists val, d. repeat split; try assumption; try lia.
  unfold cmps12_get_cardinal_direction. rewrite Hval. cbv zeta.
  destruct (Z.ltb_spec (Z.rem val 16) 0); [lia|exact Hd].
Qed.

Lemma cardinal_direction_total_witness :
  exists val d,
    cardinal_val 65535 = Some val
    /\ 0 <= Z.rem val 16 <= 15
    /\ nth_error directions (Z.to_nat (Z.rem val 16)) = Some d
    /\ cmps12_get_cardinal_direction 65535 = Some d
    /\ In d directions.
Proof.
  apply (cardinal_direction_total 65535). lia.
Defined.

(** C4 as stated fails: the argument is in whole degrees, so 225 is
    225 degrees, south-west; between 0 and 225 the output has already
    left "N" at 12. *)
Lemma cardinal_direction_225_is_not_NNE :
  cmps12_get_cardinal_direction 225 = Some "SW"%string
  /\ cmps12_get_cardinal_direction 225 <> Some "NNE"%string
  /\ cmps12_get_cardinal_direction 12 = Some "NNE"%string
  /\ cmps12_get_cardinal_direction 224 <> Some "N"%string.
Proof.
  repeat split; try (vm_compute; reflexivity); vm_compute; discriminate.
Qed.

Lemma spec_direction_period (k angle : Z) :
  0 <= angle -> 0 <= k ->
  spec_direction (angle + 360 * k) = spec_direction angle.
Proof.
  intros Ha Hk. unfold spec_direction. rewrite !spec_round_eq.
  replace (4 * (angle + 360 * k) + 45) with (4 * angle + 45 + (16 * k) * 90) by lia.
  rewrite Z.div_add by lia.
  replace ((4 * angle + 45) / 90 + 16 * k) with ((4 * angle + 45) / 90 + k * 16) by lia.
  rewrite Z.mod_add by lia. reflexivity.
Qed.

(** C4, amended. The argument is in whole degrees and the mapping is
    cyclic with period 360, hence also with period 3600, as long as the
    argument stays a [uint16_t]; 0 and 3600 both give "N"; the output is
    "N" on 0..11 and 12 is the first input that gives "NNE". *)
Theorem cardinal_direction_cyclic_in_degrees :
  (forall angle, 0 <= angle -> angle + 360 < 65536 ->
     cmps12_get_cardinal_direction (angle + 360) = cmps12_get_cardinal_direction angle)
  /\ (forall angle, 0 <= angle -> angle + 3600 < 65536 ->
     cmps12_get_cardinal_direction (angle + 3600) = cmps12_get_cardinal_direction angle)
  /\ cmps12_get_cardinal_direction 0 = Some "N"%string
  /\ cmps12_get_cardinal_direction 3600 = Some "N"%string
  /\ (forall angle, 0 <= angle < 12 ->
     cmps12_get_cardinal_direction angle = Some "N"%string)
  /\ cmps12_get_cardinal_direction 12 = Some "NNE"%string.
Proof.
  split; [|split; [|split; [|split; [|split]]]].
  - intros angle Ha Hb.
    rewrite !cardinal_direction_exact by lia.
    replace (angle + 360) with (angle + 360 * 1) by lia.
    apply spec_direction_period; lia.
  - intros angle Ha Hb.
    rewrite !cardinal_direction_exact by lia.
    replace (angle + 3600) with (angle + 360 * 10) by lia.
    apply spec_direction_period; lia.
  - vm_compute. reflexivity.
  - vm_compute. reflexivity.
  - intros angle Ha.
    rewrite cardinal_direction_exact by lia.
    unfold spec_direction. rewrite spec_round_eq.
    assert (Hq : (4 * angle + 45) / 90 = 0).
    { apply Z.div_small. lia. }
    rewrite Hq. reflexivity.
  - vm_compute. reflexivity.
Qed.

Lemma cardinal_direction_cyclic_in_degrees_witness :
  cmps12_get_cardinal_direction (225 + 360) = cmps12_get_cardinal_direction 225
  /\ cmps12_get_cardinal_direction (225 + 3600) = cmps12_get_cardinal_direction 225
  /\ cmps12_get_cardinal_direction 11 = Some "N"%string.
Proof.
  split; [|split].
  - apply (proj1 cardinal_direction_cyclic_in_degrees 225); lia.
  - apply (proj1 (proj2 cardinal_direction_cyclic_in_degrees) 225); lia.
  - apply (proj1 (proj2 (proj2 (proj2 (proj2 cardinal_direction_cyclic_in_degrees)))) 11).
    lia.
Defined.

(** C10. [cmps12_init] stores the bus handle and zeroes [angle8],
    [angle16], [pitch] and [roll] whatever the struct held and whatever
    the probe answers: the single bus transaction is the 1-byte read at
    address 0x60, the result is [true] exactly when that read did not
    return a negative value, and when it is [false] the struct is left
    in the reset state. *)
Theorem cmps12_init_resets_struct_unconditionally
    {HW : Type} `{I2CHardware HW} (w : world HW) (compass : cmps12_t)
    (port : option i2c_inst_t) (ok : bool) (compass' : cmps12_t) (w' : world HW) :
  cmps12_init w compass port = (ok, compass', w') ->
  compass' = mkCompass port 0 0 0 0
  /\ trace w' = trace w ++ [I2C_read port CMPS12_ADDRESS 1 false]
  /\ (ok = false <-> fst (fst (hw_read (hw w) port CMPS12_ADDRESS 1 false)) < 0)
  /\ (ok = false -> compass' = mkCompass port 0 0 0 0).
Proof.
  unfold cmps12_init, i2c_read_blocking.
  destruct (hw_read (hw w) port CMPS12_ADDRESS 1 false) as [[result dst] h].
  intros Hinit. injection Hinit as Hok Hc Hw. subst ok compass' w'.
  cbn. repeat split.
  - intros Hneg. apply Z.leb_gt. assumption.
  - intros Hneg. apply Z.leb_gt in Hneg. assumption.
Qed.

Lemma cmps12_init_resets_struct_unconditionally_witness :
  let w := scripted_world [(-2, [])] in
  let compass := mkCompass None 7 1234 (-3) 5 in
  let w' := mkWorld [] [I2C_read (Some 0) CMPS12_ADDRESS 1 false] 0 in
  cmps12_init w compass (Some 0) = (false, mkCompass (Some 0) 0 0 0 0, w')
  /\ (mkCompass (Some 0) 0 0 0 0 = mkCompass (Some 0) 0 0 0 0
      /\ trace w' = trace w ++ [I2C_read (Some 0) CMPS12_ADDRESS 1 false]
      /\ (false = false
          <-> fst (fst (hw_read (hw w) (Some 0) CMPS12_ADDRESS 1 false)) < 0)
      /\ (false = false -> mkCompass (Some 0) 0 0 0 0 = mkCompass (Some 0) 0 0 0 0)).
Proof.
  intros w compass w'. split.
  - reflexivity.
  - apply (cmps12_init_resets_struct_unconditionally w compass (Some 0)).
    reflexivity.
Defined.

End CMPS12_Properties.

(* ================================================================== *)
(** ** VEML7700: properties *)

Module VEML7700_Properties.
Import VEML7700.

(** *** Resolution *)

(** The two clamp literals as binary32 values: [9019431 * 2^-31] and
    [9019431 * 2^-22], the floats nearest to 0.0042 and 2.1504. *)
Lemma resolution_literals :
  resolution_min = S754_finite false 9019431 (-31)
  /\ resolution_max = S754_finite false 9019431 (-22).
Proof. split; vm_compute; reflexivity. Qed.

(** The literals [0.125f] and [0.25f] are exact: one eighth and one
    quarter. *)
Lemma gain_literals_exact :
  gain_val VEML7700_GAIN_1_8 = Binary32.div (Binary32.of_Z 1) (Binary32.of_Z 8)
  /\ gain_val VEML7700_GAIN_1_4 = Binary32.div (Binary32.of_Z 1) (Binary32.of_Z 4).
Proof. split; vm_compute; reflexivity. Qed.

Ltac enumerate_members :=
  repeat match goal with
         | Hin : In _ (_ :: _) |- _ => destruct Hin as [<-|Hin]
         | Hin : In _ [] |- _ => destruct Hin
         end.

(** C6. For all valid gain and integration-time enumerators the
    resolution lies between the literals [0.0042f] and [2.1504f], and it
    does not decrease when the gain (x1/8 < x1/4 < x1 < x2) or the
    integration time (25 < 50 < 100 < 200 < 400 < 800 ms) decreases; it
    increases when one of the two decreases strictly. The numbers that
    the code looks up for an enumerator are those of its name. *)
Theorem resolution_bounded_and_monotone
    (g1 g2 : veml7700_gain_t) (it1 it2 : veml7700_it_t) :
  In g1 valid_gains -> In g2 valid_gains ->
  In it1 valid_its -> In it2 valid_its ->
  (Binary32.leb resolution_min (veml7700_get_resolution g1 it1) = true
   /\ Binary32.leb (veml7700_get_resolution g1 it1) resolution_max = true)
  /\ (spec_gain_eighths g1 <= spec_gain_eighths g2 ->
      spec_integration_ms it1 <= spec_integration_ms it2 ->
      Binary32.leb (veml7700_get_resolution g2 it2)
                   (veml7700_get_resolution g1 it1) = true)
  /\ (spec_gain_eighths g1 <= spec_gain_eighths g2 ->
      spec_integration_ms it1 <= spec_integration_ms it2 ->
      spec_gain_eighths g1 < spec_gain_eighths g2
      \/ spec_integration_ms it1 < spec_integration_ms it2 ->
      Binary32.ltb (veml7700_get_resolution g2 it2)
                   (veml7700_get_resolution g1 it1) = true)
  /\ gain_val g1 = Binary32.div (Binary32.of_Z (spec_gain_eighths g1)) (Binary32.of_Z 8)
  /\ it_val it1 = Binary32.of_Z (spec_integration_ms it1).
Proof.
  unfold valid_gains, valid_its. intros Hg1 Hg2 Hi1 Hi2.
  enumerate_members.
  all: split; [split; vm_compute; reflexivity|].
  all: split;
    [intros Hg Hi;
     first [ vm_compute; reflexivity
           | exfalso; vm_compute in Hg; apply Hg; reflexivity
           | exfalso; vm_compute in Hi; apply Hi; reflexivity ]|].
  all: split;
    [intros Hg Hi Hstrict;
     first [ vm_compute; reflexivity
           | exfalso; vm_compute in Hg; apply Hg; reflexivity
           | exfalso; vm_compute in Hi; apply Hi; reflexivity
           | exfalso; destruct Hstrict as [Hs|Hs]; vm_compute in Hs; discriminate Hs ]|].
  all: split; vm_compute; reflexivity.
Qed.

Lemma resolution_bounded_and_monotone_witness :
  (In VEML7700_GAIN_1_8 valid_gains /\ In VEML7700_GAIN_2 valid_gains
   /\ In VEML7700_IT_25MS valid_its /\ In VEML7700_IT_800MS valid_its)
  /\ (spec_gain_eighths VEML7700_GAIN_1_8 <= spec_gain_eighths VEML7700_GAIN_2
      /\ spec_integration_ms VEML7700_IT_25MS <= spec_integration_ms VEML7700_IT_800MS)
  /\ Binary32.leb (veml7700_get_resolution VEML7700_GAIN_2 VEML7700_IT_800MS)
                  (veml7700_get_resolution VEML7700_GAIN_1_8 VEML7700_IT_25MS) = true
  /\ Binary32.ltb (veml7700_get_resolution VEML7700_GAIN_2 VEML7700_IT_800MS)
                  (veml7700_get_resolution VEML7700_GAIN_1_8 VEML7700_IT_25MS) = true.
Proof.
  assert (Hmem : In VEML7700_GAIN_1_8 valid_gains /\ In VEML7700_GAIN_2 valid_gains
                 /\ In VEML7700_IT_25MS valid_its /\ In VEML7700_IT_800MS valid_its).
  { unfold valid_gains, valid_its. simpl. tauto. }
  assert (Hgain : spec_gain_eighths VEML7700_GAIN_1_8 <= spec_gain_eighths VEML7700_GAIN_2)
    by (vm_compute; discriminate).
  assert (Htime : spec_integration_ms VEML7700_IT_25MS
                  <= spec_integration_ms VEML7700_IT_800MS)
    by (vm_compute; discriminate).
  assert (Hless : spec_gain_eighths VEML7700_GAIN_1_8 < spec_gain_eighths VEML7700_GAIN_2)
    by (vm_compute; reflexivity).
  split; [exact Hmem|]. split; [split; assumption|].
  destruct Hmem as [Hg1 [Hg2 [Hi1 Hi2]]].
  destruct (resolution_bounded_and_monotone
              VEML7700_GAIN_1_8 VEML7700_GAIN_2 VEML7700_IT_25MS VEML7700_IT_800MS
              Hg1 Hg2 Hi1 Hi2) as [_ [Hmono [Hstrict _]]].
  split; [apply Hmono; assumption|].
  apply Hstrict; [assumption|assumption|left; exact Hless].
Defined.

(** *** Register transport *)

Section Transport.
Context {HW : Type} `{I2CHardware HW}.

Lemma write_reg_ready (w : world HW) (s : veml7700_sensor_t) (reg data : Z) :
  initialized s = true ->
  veml7700_write_reg w (Some s) reg data
  = let '(r, h) := hw_write (hw w) (i2c_port s) VEML7700_I2C_ADDRESS
                            (write_frame reg data) false in
    (if r =? 3 then VEML7700_OK else VEML7700_ERROR_I2C_TX,
     after_call w h (I2C_write (i2c_port s) VEML7700_I2C_ADDRESS
                               (write_frame reg data) false)).
Proof.
  intros Hinit. unfold veml7700_write_reg, i2c_write_blocking, write_frame, after_call.
  rewrite Hinit. cbn [negb].
  destruct (hw_write _ _ _ _ _) as [r h].
  destruct (Z.ltb_spec r 0); destruct (Z.eqb_spec r 3); try lia; reflexivity.
Qed.

Lemma write_reg_status (w : world HW) (sensor : option veml7700_sensor_t)
    (reg data : Z) :
  let status := fst (veml7700_write_reg w sensor reg data) in
  status = VEML7700_OK \/ status = VEML7700_ERROR_I2C_TX
  \/ status = VEML7700_ERROR_CONFIG.
Proof.
  destruct sensor as [s|]; [|cbn; tauto].
  destruct (initialized s) eqn:Hinit.
  - rewrite (write_reg_ready w s reg data Hinit).
    destruct (hw_write _ _ _ _ _) as [r h]. cbn.
    destruct (r =? 3); tauto.
  - unfold veml7700_write_reg. rewrite Hinit. cbn. tauto.
Qed.

Lemma read_reg_ready (w : world HW) (s : veml7700_sensor_t) (reg cell : Z) :
  initialized s = true ->
  veml7700_read_reg w (Some s) reg (Some cell)
  = let port := i2c_port s in
    let '(r1, h1) := hw_write (hw w) port VEML7700_I2C_ADDRESS [uint8 reg] true in
    let w1 := after_call w h1 (I2C_write port VEML7700_I2C_ADDRESS [uint8 reg] true) in
    if r1 =? 1 then
      let '(r2, dst, h2) := hw_read h1 port VEML7700_I2C_ADDRESS 2 false in
      let w2 := after_call w1 h2 (I2C_read port VEML7700_I2C_ADDRESS 2 false) in
      if r2 =? 2 then
        (VEML7700_OK,
         Some (uint16 (Z.lor (Z.shiftl (uint8 (nth 1 dst 0)) 8) (uint8 (nth 0 dst 0)))),
         w2)
      else (VEML7700_ERROR_I2C_RX, Some cell, w2)
    else (VEML7700_ERROR_I2C_TX, Some cell, w1).
Proof.
  intros Hinit. unfold veml7700_read_reg, i2c_write_blocking, i2c_read_blocking, after_call.
  rewrite Hinit. cbn [negb].
  destruct (hw_write _ _ _ _ _) as [r1 h1]. cbn [hw trace slept_ms].
  destruct (Z.ltb_spec r1 0); destruct (Z.eqb_spec r1 1); try lia; try reflexivity.
  cbn [negb].
  destruct (hw_read _ _ _ _ _) as [[r2 dst] h2].
  destruct (Z.ltb_spec r2 0); destruct (Z.eqb_spec r2 2); try lia; reflexivity.
Qed.

(** A register read uses only the port and the initialized flag of
    the handle. *)
Lemma read_reg_handle_irrelevant (w : world HW) (s1 s2 : veml7700_sensor_t)
    (reg : Z) (data : option Z) :
  i2c_port s1 = i2c_port s2 -> initialized s1 = initialized s2 ->
  veml7700_read_reg w (Some s1) reg data = veml7700_read_reg w (Some s2) reg data.
Proof.
  intros Hport Hinit. unfold veml7700_read_reg. rewrite Hport, Hinit. reflexivity.
Qed.

(** C8. In both transport helpers only a transfer of exactly the
    requested number of bytes counts as success: a negative result or
    any other count in the write phase gives [VEML7700_ERROR_I2C_TX],
    in the read phase [VEML7700_ERROR_I2C_RX]; after a failed write
    phase no read is issued, and the output cell is rewritten only on
    success. *)
Theorem transport_requires_exact_byte_count
    (w : world HW) (s : veml7700_sensor_t) (reg data cell : Z) :
  initialized s = true ->
  let port := i2c_port s in
  (forall r h,
      hw_write (hw w) port VEML7700_I2C_ADDRESS (write_frame reg data) false = (r, h) ->
      let w1 := after_call w h (I2C_write port VEML7700_I2C_ADDRESS
                                          (write_frame reg data) false) in
      (r < 0 \/ r <> 3 ->
       veml7700_write_reg w (Some s) reg data = (VEML7700_ERROR_I2C_TX, w1))
      /\ (r = 3 -> veml7700_write_reg w (Some s) reg data = (VEML7700_OK, w1)))
  /\ (forall r1 h1,
      hw_write (hw w) port VEML7700_I2C_ADDRESS [uint8 reg] true = (r1, h1) ->
      let w1 := after_call w h1 (I2C_write port VEML7700_I2C_ADDRESS [uint8 reg] true) in
      (r1 < 0 \/ r1 <> 1 ->
       veml7700_read_reg w (Some s) reg (Some cell)
       = (VEML7700_ERROR_I2C_TX, Some cell, w1))
      /\ (r1 = 1 ->
          forall r2 dst h2,
            hw_read h1 port VEML7700_I2C_ADDRESS 2 false = (r2, dst, h2) ->
            let w2 := after_call w1 h2 (I2C_read port VEML7700_I2C_ADDRESS 2 false) in
            (r2 < 0 \/ r2 <> 2 ->
             veml7700_read_reg w (Some s) reg (Some cell)
             = (VEML7700_ERROR_I2C_RX, Some cell, w2))
            /\ (r2 = 2 ->
                veml7700_read_reg w (Some s) reg (Some cell)
                = (VEML7700_OK,
                   Some (uint16 (Z.lor (Z.shiftl (uint8 (nth 1 dst 0)) 8)
                                       (uint8 (nth 0 dst 0)))),
                   w2)))).
Proof.
  intros Hinit port. subst port. split.
  - intros r h Hw w1. subst w1.
    pose proof (write_reg_ready w s reg data Hinit) as Ewr.
    rewrite Hw in Ewr. rewrite Ewr.
    split; intros Hr; destruct (Z.eqb_spec r 3); try lia; reflexivity.
  - intros r1 h1 Hw w1. subst w1.
    pose proof (read_reg_ready w s reg cell Hinit) as Erd.
    cbv zeta in Erd. rewrite Hw in Erd. rewrite Erd.
    split; intros Hr1; destruct (Z.eqb_spec r1 1); try lia; try reflexivity.
    intros r2 dst h2 Hr w2. subst w2. rewrite Hr.
    split; intros Hr2; destruct (Z.eqb_spec r2 2); try lia; reflexivity.
Qed.

End Transport.

(** A short write (2 of 3 bytes), a short read (1 of 2 bytes) and a
    complete read of the bytes [0x81; 0xC4]. *)
Lemma transport_requires_exact_byte_count_witness :
  initialized ready_sensor = true
  /\ fst (veml7700_write_reg (scripted_world [(2, [])]) (Some ready_sensor)
                             VEML7700_REG_ALS_WH 0x1234)
     = VEML7700_ERROR_I2C_TX
  /\ fst (veml7700_read_reg (scripted_world [(1, []); (1, [0x81])]) (Some ready_sensor)
                            VEML7700_REG_ID (Some 7))
     = (VEML7700_ERROR_I2C_RX, Some 7)
  /\ fst (veml7700_read_reg (scripted_world [(1, []); (2, [0x81; 0xC4])])
                            (Some ready_sensor) VEML7700_REG_ID (Some 7))
     = (VEML7700_OK, Some 0xC481).
Proof.
  split; [reflexivity|]. split; [|split].
  - destruct (transport_requires_exact_byte_count
                (scripted_world [(2, [])]) ready_sensor VEML7700_REG_ALS_WH 0x1234 0)
      as [Hwr _]; [reflexivity|].
    destruct (Hwr 2 []) as [Hfail _]; [reflexivity|].
    rewrite Hfail by lia. reflexivity.
  - destruct (transport_requires_exact_byte_count
                (scripted_world [(1, []); (1, [0x81])]) ready_sensor VEML7700_REG_ID 0 7)
      as [_ Hrd]; [reflexivity|].
    destruct (Hrd 1 [(1, [0x81])]) as [_ Hphase]; [reflexivity|].
    destruct (Hphase eq_refl 1 [0x81] []) as [Hfail _]; [reflexivity|].
    rewrite Hfail by lia. reflexivity.
  - destruct (transport_requires_exact_byte_count
                (scripted_world [(1, []); (2, [0x81; 0xC4])]) ready_sensor
                VEML7700_REG_ID 0 7)
      as [_ Hrd]; [reflexivity|].
    destruct (Hrd 1 [(2, [0x81; 0xC4])]) as [_ Hphase]; [reflexivity|].
    destruct (Hphase eq_refl 2 [0x81; 0xC4] []) as [_ Hok]; [reflexivity|].
    rewrite Hok by reflexivity. reflexivity.
Defined.

(** *** Bit fields of a register value *)

Lemma bit_field_spec (x lo width i : Z) :
  0 <= lo -> 0 <= width -> 0 <= i ->
  Z.testbit (Z.land (Z.shiftr x lo) (Z.ones width)) i
  = (i <? width) && Z.testbit x (i + lo).
Proof.
  intros Hlo Hwidth Hi.
  rewrite Z.land_spec, Z.shiftr_spec, Z.testbit_ones_nonneg by lia.
  apply andb_comm.
Qed.

(** *** Calls on a handle that is not ready *)

Section Guards.
Context {HW : Type} `{I2CHardware HW}.

(** C5. Every operation on an existing handle (every entry point other
    than [veml7700_init], which is the one that makes a handle ready),
    called with a NULL handle or with a handle whose [initialized] flag is
    false, returns [VEML7700_ERROR_CONFIG], leaves the handle as it was
    and issues no bus transaction: the world, and with it the trace of
    I2C calls, is unchanged. *)
Theorem unready_handle_rejected_without_bus_traffic
    (w : world HW) (sensor : option veml7700_sensor_t) (c : veml7700_call) :
  sensor = None \/ (exists s, sensor = Some s /\ initialized s = false) ->
  veml7700_invoke w sensor c = (VEML7700_ERROR_CONFIG, sensor, w)
  /\ trace (snd (veml7700_invoke w sensor c)) = trace w.
Proof.
  intros Hunready.
  assert (Hcall : veml7700_invoke w sensor c = (VEML7700_ERROR_CONFIG, sensor, w)).
  { destruct Hunready as [-> | [s [-> Hflag]]].
    - destruct c; reflexivity.
    - destruct s as [port cache psm flag gain it]. cbn in Hflag. subst flag.
      destruct c; reflexivity. }
  rewrite Hcall. split; reflexivity.
Qed.

End Guards.

(** A handle that was never initialized, on a bus that would answer. *)
Lemma unready_handle_rejected_without_bus_traffic_witness :
  let sensor := Some (mkSensor (Some 0) 0 0 false 0 0) in
  let w := scripted_world [(1, []); (2, [0x10; 0x27])] in
  (sensor = None \/ (exists s, sensor = Some s /\ initialized s = false))
  /\ veml7700_invoke w sensor (Call_read_lux (Some (Binary32.of_Z 0)))
     = (VEML7700_ERROR_CONFIG, sensor, w)
  /\ trace (snd (veml7700_invoke w sensor (Call_read_lux (Some (Binary32.of_Z 0)))))
     = [].
Proof.
  intros sensor w.
  assert (Hunready : sensor = None \/ (exists s, sensor = Some s /\ initialized s = false)).
  { right. eexists. split; reflexivity. }
  split; [exact Hunready|].
  apply (unready_handle_rejected_without_bus_traffic
           w sensor (Call_read_lux (Some (Binary32.of_Z 0))) Hunready).
Defined.

(** *** Lux computation *)

Section Lux.
Context {HW : Type} `{I2CHardware HW}.

Lemma read_reg_success_cell (w : world HW) (s : veml7700_sensor_t) (reg cell : Z)
    (out : option Z) (w' : world HW) :
  veml7700_read_reg w (Some s) reg (Some cell) = (VEML7700_OK, out, w') ->
  initialized s = true /\ exists v, out = Some v /\ 0 <= v < 65536.
Proof.
  intros Hread. destruct (initialized s) eqn:Hinit.
  - split; [reflexivity|].
    rewrite (read_reg_ready w s reg cell Hinit) in Hread. cbv zeta in Hread.
    destruct (hw_write _ _ _ _ _) as [r1 h1].
    destruct (r1 =? 1); [|discriminate].
    destruct (hw_read _ _ _ _ _) as [[r2 dst] h2].
    destruct (r2 =? 2); [|discriminate].
    injection Hread as <- _. eexists. split; [reflexivity|].
    unfold uint16. apply Z.mod_pos_bound. lia.
  - unfold veml7700_read_reg in Hread. rewrite Hinit in Hread. discriminate.
Qed.

Lemma read_lux_ready (w : world HW) (s : veml7700_sensor_t) (lux0 : spec_float) :
  initialized s = true ->
  veml7700_read_lux w (Some s) (Some lux0)
  = let '(status, als_raw, w1) :=
      veml7700_read_reg w (Some s) VEML7700_REG_ALS (Some 0) in
    if negb (status =? VEML7700_OK) then
      (status, Some s, Some (Binary32.of_Z (-1)), w1)
    else
      let '(status, cell, w2) :=
        veml7700_read_reg w1 (Some s) VEML7700_REG_ALS_CONF (Some (config_cache s)) in
      let s' := match cell with Some v => set_config_cache v s | None => s end in
      if negb (status =? VEML7700_OK) then
        (status, Some s', Some (Binary32.of_Z (-1)), w2)
      else
        let gain := Z.land (Z.shiftr (config_cache s') 11) 0x03 in
        let it := Z.land (Z.shiftr (config_cache s') 6) 0x0F in
        (VEML7700_OK,
         Some (mkSensor (i2c_port s) (config_cache s') (psm_cache s) true gain it),
         Some (Binary32.mul
                 (Binary32.of_Z (match als_raw with Some v => v | None => 0 end))
                 (veml7700_get_resolution gain it)),
         w2).
Proof.
  intros Hinit. unfold veml7700_read_lux, veml7700_read_als, not_ready.
  rewrite Hinit. cbn [negb].
  destruct (veml7700_read_reg w (Some s) VEML7700_REG_ALS (Some 0)) as [[st1 raw] w1].
  destruct (negb (st1 =? VEML7700_OK)); [reflexivity|].
  destruct (veml7700_read_reg w1 (Some s) VEML7700_REG_ALS_CONF (Some (config_cache s)))
    as [[st2 cell] w2].
  destruct (negb (st2 =? VEML7700_OK)); [reflexivity|].
  destruct cell as [v|];
    unfold set_current_it, set_current_gain, set_config_cache;
    cbn [i2c_port config_cache psm_cache initialized current_gain current_it];
    rewrite Hinit; reflexivity.
Qed.

(** C3. When [veml7700_read_lux] succeeds, both register reads of the
    call succeeded, with values [raw] (ALS data) and [cfg] (configuration
    register), and the stored lux is the binary32 product of [raw] and
    [veml7700_get_resolution gain it], where [gain] is bits 11-12 and [it]
    is bits 6-9 of [cfg]. The handle's cached configuration, gain and
    integration time are overwritten from [cfg] and play no part: any
    other ready handle on the same port yields the same lux. *)
Theorem read_lux_uses_fresh_configuration
    (w : world HW) (s : veml7700_sensor_t) (lux0 : spec_float)
    (sensor' : option veml7700_sensor_t) (lux' : option spec_float) (w' : world HW) :
  veml7700_read_lux w (Some s) (Some lux0) = (VEML7700_OK, sensor', lux', w') ->
  exists raw cfg w1,
    veml7700_read_reg w (Some s) VEML7700_REG_ALS (Some 0)
    = (VEML7700_OK, Some raw, w1)
    /\ veml7700_read_reg w1 (Some s) VEML7700_REG_ALS_CONF (Some (config_cache s))
       = (VEML7700_OK, Some cfg, w')
    /\ (let gain := Z.land (Z.shiftr cfg 11) 0x03 in
        let it := Z.land (Z.shiftr cfg 6) 0x0F in
        lux' = Some (Binary32.mul (Binary32.of_Z raw) (veml7700_get_resolution gain it))
        /\ sensor' = Some (mkSensor (i2c_port s) cfg (psm_cache s) true gain it)
        /\ (forall i, 0 <= i -> Z.testbit gain i = (i <? 2) && Z.testbit cfg (i + 11))
        /\ (forall i, 0 <= i -> Z.testbit it i = (i <? 4) && Z.testbit cfg (i + 6)))
    /\ (forall s2 lux2,
          i2c_port s2 = i2c_port s -> initialized s2 = true ->
          exists sensor2,
            veml7700_read_lux w (Some s2) (Some lux2)
            = (VEML7700_OK, sensor2, lux', w')).
Proof.
  intros Hlux.
  assert (Hinit : initialized s = true).
  { destruct (initialized s) eqn:Hflag; [reflexivity|].
    unfold veml7700_read_lux in Hlux. rewrite Hflag in Hlux. discriminate. }
  rewrite (read_lux_ready w s lux0 Hinit) in Hlux.
  destruct (veml7700_read_reg w (Some s) VEML7700_REG_ALS (Some 0))
    as [[st1 out1] w1] eqn:Hals.
  destruct (Z.eqb_spec st1 VEML7700_OK) as [->|Hne]; cbn [negb] in Hlux;
    [|injection Hlux as Hst; contradiction].
  destruct (read_reg_success_cell _ _ _ _ _ _ Hals) as [_ [raw [-> Hraw]]].
  destruct (veml7700_read_reg w1 (Some s) VEML7700_REG_ALS_CONF (Some (config_cache s)))
    as [[st2 out2] w2] eqn:Hconf.
  destruct (Z.eqb_spec st2 VEML7700_OK) as [->|Hne]; cbn [negb] in Hlux;
    [|injection Hlux as Hst; contradiction].
  destruct (read_reg_success_cell _ _ _ _ _ _ Hconf) as [_ [cfg [-> Hcfg]]].
  cbn in Hlux. injection Hlux as <- <- <-.
  exists raw, cfg, w1.
  split; [first [exact Hals | reflexivity]|].
  split; [first [exact Hconf | reflexivity]|]. split.
  - cbv zeta. split; [reflexivity|]. split; [reflexivity|]. split.
    + intros i Hi. apply (bit_field_spec cfg 11 2 i); lia.
    + intros i Hi. apply (bit_field_spec cfg 6 4 i); lia.
  - intros s2 lux2 Hport Hinit2.
    rewrite (read_lux_ready w s2 lux2 Hinit2).
    rewrite (read_reg_handle_irrelevant w s2 s VEML7700_REG_ALS (Some 0))
      by congruence.
    rewrite Hals. cbn [negb Z.eqb VEML7700_OK].
    assert (Hconf2 :
              veml7700_read_reg w1 (Some s2) VEML7700_REG_ALS_CONF (Some (config_cache s2))
              = (VEML7700_OK, Some cfg, w2)).
    { rewrite (read_reg_ready w1 s2 _ _ Hinit2).
      rewrite (read_reg_ready w1 s _ _ Hinit) in Hconf.
      cbv zeta in *. rewrite Hport.
      destruct (hw_write _ _ _ _ _) as [r1 h1].
      destruct (r1 =? 1); [|discriminate].
      destruct (hw_read _ _ _ _ _) as [[r2 dst] h2].
      destruct (r2 =? 2); [|discriminate].
      injection Hconf as <- <-. reflexivity. }
    rewrite Hconf2. cbn. eexists. reflexivity.
Qed.

End Lux.

(** Raw count 1000 and configuration [0x00C0] (gain x1, 800 ms) read from
    the device, with a handle whose cache still says gain x2, 100 ms. *)
Lemma read_lux_uses_fresh_configuration_witness :
  let s := mkSensor (Some 0) 0x0800 0 true VEML7700_GAIN_2 VEML7700_IT_100MS in
  let w := scripted_world [(1, []); (2, [0xE8; 0x03]); (1, []); (2, [0xC0; 0x00])] in
  let lux := Binary32.mul (Binary32.of_Z 1000)
               (veml7700_get_resolution VEML7700_GAIN_1 VEML7700_IT_800MS) in
  veml7700_read_lux w (Some s) (Some (Binary32.of_Z 0))
  = (VEML7700_OK,
     Some (mkSensor (Some 0) 0x00C0 0 true VEML7700_GAIN_1 VEML7700_IT_800MS),
     Some lux,
     mkWorld []
       [I2C_write (Some 0) VEML7700_I2C_ADDRESS [VEML7700_REG_ALS] true;
        I2C_read (Some 0) VEML7700_I2C_ADDRESS 2 false;
        I2C_write (Some 0) VEML7700_I2C_ADDRESS [VEML7700_REG_ALS_CONF] true;
        I2C_read (Some 0) VEML7700_I2C_ADDRESS 2 false] 0)
  /\ exists raw cfg,
       raw = 1000 /\ cfg = 0x00C0
       /\ Some lux
          = Some (Binary32.mul (Binary32.of_Z raw)
                    (veml7700_get_resolution (Z.land (Z.shiftr cfg 11) 0x03)
                                             (Z.land (Z.shiftr cfg 6) 0x0F))).
Proof.
  intros s w lux.
  assert (Hrun : veml7700_read_lux w (Some s) (Some (Binary32.of_Z 0))
                 = (VEML7700_OK,
                    Some (mkSensor (Some 0) 0x00C0 0 true VEML7700_GAIN_1 VEML7700_IT_800MS),
                    Some lux,
                    mkWorld []
                      [I2C_write (Some 0) VEML7700_I2C_ADDRESS [VEML7700_REG_ALS] true;
                       I2C_read (Some 0) VEML7700_I2C_ADDRESS 2 false;
                       I2C_write (Some 0) VEML7700_I2C_ADDRESS [VEML7700_REG_ALS_CONF] true;
                       I2C_read (Some 0) VEML7700_I2C_ADDRESS 2 false] 0))
    by (vm_compute; reflexivity).
  split; [exact Hrun|].
  destruct (read_lux_uses_fresh_configuration w s _ _ _ _ Hrun)
    as [raw [cfg [w1 [Hals [Hconf [[Hlux _] _]]]]]].
  exists raw, cfg.
  vm_compute in Hals. injection Hals as <- <-.
  vm_compute in Hconf. injection Hconf as <-.
  split; [reflexivity|]. split; [reflexivity|]. exact Hlux.
Defined.

(** *** Initialization *)

Section Init.
Context {HW : Type} `{I2CHardware HW}.

Lemma trace_after_call (w : world HW) (h : HW) (e : i2c_event) :
  trace (after_call w h e) = trace w ++ [e].
Proof. reflexivity. Qed.

(** [veml7700_init] itself answers a NULL handle or a NULL bus pointer
    with [VEML7700_ERROR_INVALID_ARG], before any bus call. *)
Lemma init_null_argument (w : world HW) (sensor : option veml7700_sensor_t)
    (port : option i2c_inst_t) (sda_pin scl_pin baudrate : Z) :
  sensor = None \/ port = None ->
  veml7700_init w sensor port sda_pin scl_pin baudrate
  = (VEML7700_ERROR_INVALID_ARG, sensor, w).
Proof.
  intros [-> | ->]; [reflexivity|]. destruct sensor; reflexivity.
Qed.

(** C2. Once the device-ID register has been read as [id], [veml7700_init]
    rejects the device exactly when neither the low byte is 0x81 nor the
    high byte is 0x28: it then returns [VEML7700_ERROR_INIT], leaves the
    handle uninitialized and issues no further bus call. When either byte
    matches it goes on to write the default configuration register, does
    not return [VEML7700_ERROR_INIT], and leaves the handle initialized
    exactly when it returns [VEML7700_OK]. *)
Theorem init_accepts_either_id_byte
    (w : world HW) (s : veml7700_sensor_t) (port : i2c_inst_t)
    (sda_pin scl_pin baudrate id : Z) (w1 : world HW)
    (status : Z) (sensor' : option veml7700_sensor_t) (w' : world HW) :
  veml7700_read_reg w (Some (set_initialized true (set_i2c_port (Some port) s)))
                    VEML7700_REG_ID (Some 0)
  = (VEML7700_OK, Some id, w1) ->
  veml7700_init w (Some s) (Some port) sda_pin scl_pin baudrate = (status, sensor', w') ->
  (Z.land id 0xFF <> 0x81 /\ Z.shiftr id 8 <> 0x28 ->
   status = VEML7700_ERROR_INIT
   /\ w' = w1
   /\ exists s', sensor' = Some s' /\ initialized s' = false)
  /\ (Z.land id 0xFF = 0x81 \/ Z.shiftr id 8 = 0x28 ->
      (status = VEML7700_OK \/ status = VEML7700_ERROR_I2C_TX)
      /\ (exists rest,
             trace w' = trace w1
                        ++ I2C_write (Some port) VEML7700_I2C_ADDRESS
                                     (write_frame VEML7700_REG_ALS_CONF 0) false
                        :: rest)
      /\ exists s', sensor' = Some s'
                    /\ (initialized s' = true <-> status = VEML7700_OK)).
Proof.
  intros Hread Hrun. unfold veml7700_init in Hrun.
  replace (set_initialized true (set_initialized false (set_i2c_port (Some port) s)))
    with (set_initialized true (set_i2c_port (Some port) s)) in Hrun by reflexivity.
  rewrite Hread in Hrun. cbn [negb Z.eqb VEML7700_OK] in Hrun.
  destruct (Z.eqb_spec (Z.land id 255) 129) as [Hlo|Hlo];
    destruct (Z.eqb_spec (Z.shiftr id 8) 40) as [Hhi|Hhi];
    cbn [negb andb] in Hrun.
  4: { injection Hrun as <- <- <-. split.
       - intros _. split; [reflexivity|]. split; [reflexivity|].
         eexists. split; reflexivity.
       - intros [Hyes|Hyes]; contradiction. }
  all: split; [intros [Hno1 Hno2]; contradiction|]; intros _.
  all: repeat
         match type of Hrun with
         | context [veml7700_write_reg ?w0 (Some ?s0) ?reg ?d] =>
             rewrite (write_reg_ready w0 s0 reg d eq_refl) in Hrun;
             destruct (hw_write (hw w0) (i2c_port s0) VEML7700_I2C_ADDRESS
                                (write_frame reg d) false) as [? ?];
             match type of Hrun with
             | context [?r =? 3] => destruct (Z.eqb_spec r 3)
             end;
             cbn [negb Z.eqb VEML7700_OK VEML7700_ERROR_I2C_TX] in Hrun
         end.
  all: injection Hrun as <- <- <-.
  all: split; [first [left; reflexivity | right; reflexivity]|].
  all: split;
    [eexists; rewrite ?trace_after_call; cbn [trace sleep_ms];
     rewrite ?trace_after_call, <- ?app_assoc; cbn [app]; reflexivity|].
  all: eexists; split; [reflexivity|]; cbn; split; intros Habs;
    first [reflexivity | discriminate].
Qed.

End Init.

(** The ID [0xFF81] matches in the low byte only and is accepted; with all
    four configuration writes acknowledged the handle ends initialized. *)
Lemma init_accepts_either_id_byte_witness :
  let s := mkSensor None 0x1234 0x0007 false VEML7700_GAIN_2 VEML7700_IT_25MS in
  let w := scripted_world
             [(1, []); (2, [0x81; 0xFF]); (3, []); (3, []); (3, []); (3, [])] in
  veml7700_read_reg w (Some (set_initialized true (set_i2c_port (Some 0) s)))
                    VEML7700_REG_ID (Some 0)
  = (VEML7700_OK, Some 0xFF81,
     mkWorld [(3, []); (3, []); (3, []); (3, [])]
       [I2C_write (Some 0) VEML7700_I2C_ADDRESS [VEML7700_REG_ID] true;
        I2C_read (Some 0) VEML7700_I2C_ADDRESS 2 false] 0)
  /\ fst (veml7700_init w (Some s) (Some 0) 4 5 100000)
     = (VEML7700_OK, Some ready_sensor)
  /\ (Z.land 0xFF81 0xFF = 0x81 \/ Z.shiftr 0xFF81 8 = 0x28)
  /\ (VEML7700_OK = VEML7700_OK \/ VEML7700_OK = VEML7700_ERROR_I2C_TX).
Proof.
  intros s w.
  assert (Hread :
            veml7700_read_reg w (Some (set_initialized true (set_i2c_port (Some 0) s)))
                              VEML7700_REG_ID (Some 0)
            = (VEML7700_OK, Some 0xFF81,
               mkWorld [(3, []); (3, []); (3, []); (3, [])]
                 [I2C_write (Some 0) VEML7700_I2C_ADDRESS [VEML7700_REG_ID] true;
                  I2C_read (Some 0) VEML7700_I2C_ADDRESS 2 false] 0))
    by (vm_compute; reflexivity).
  split; [exact Hread|].
  destruct (veml7700_init w (Some s) (Some 0) 4 5 100000) as [[status sensor'] w'] eqn:Hrun.
  assert (Hid : Z.land 0xFF81 0xFF = 0x81 \/ Z.shiftr 0xFF81 8 = 0x28)
    by (left; reflexivity).
  destruct (init_accepts_either_id_byte w s 0 4 5 100000 _ _ _ _ _ Hread Hrun)
    as [_ Haccept].
  destruct (Haccept Hid) as [Hstatus _].
  vm_compute in Hrun. injection Hrun as <- <- <-.
  split; [reflexivity|]. split; [exact Hid|]. exact Hstatus.
Defined.

(** *** Configuration setters and the register shadow *)

Lemma small_value_high_bits (v n j : Z) :
  0 <= n -> 0 <= v < 2 ^ n -> n <= j -> Z.testbit v j = false.
Proof.
  intros Hn Hv Hj. rewrite <- (Z.mod_small v (2 ^ n)) by lia.
  apply Z.mod_pow2_bits_high. lia.
Qed.

(** Clearing a field with its mask and or-ing in a value that fits the
    field replaces exactly the bits of the field. *)
Lemma field_store_bits (cache v lo width i : Z) :
  0 <= lo -> 0 <= width -> 0 <= v < 2 ^ width -> 0 <= i < 16 ->
  Z.testbit
    (uint16 (Z.lor (uint16 (Z.land cache (Z.lnot (Z.shiftl (Z.ones width) lo))))
                   (Z.shiftl v lo))) i
  = if (lo <=? i) && (i <? lo + width) then Z.testbit v (i - lo) else Z.testbit cache i.
Proof.
  intros Hlo Hwidth Hv Hi. unfold uint16. change 65536 with (2 ^ 16).
  rewrite Z.mod_pow2_bits_low, Z.lor_spec, Z.mod_pow2_bits_low by lia.
  rewrite Z.land_spec, Z.lnot_spec, !Z.shiftl_spec, Z.testbit_ones by lia.
  destruct (Z.leb_spec lo i) as [Hge|Hlt]; cbn [andb].
  - destruct (Z.ltb_spec i (lo + width)) as [Hin|Hout].
    + replace (0 <=? i - lo) with true by (symmetry; apply Z.leb_le; lia).
      replace (i - lo <? width) with true by (symmetry; apply Z.ltb_lt; lia).
      cbn. rewrite andb_false_r. reflexivity.
    + replace (i - lo <? width) with false by (symmetry; apply Z.ltb_ge; lia).
      rewrite andb_false_r. cbn [negb].
      rewrite (small_value_high_bits v width (i - lo)) by lia.
      rewrite andb_true_r, orb_false_r. reflexivity.
  - replace (0 <=? i - lo) with false by (symmetry; apply Z.leb_gt; lia).
    cbn [andb negb]. rewrite (Z.testbit_neg_r v (i - lo)) by lia.
    rewrite andb_true_r, orb_false_r. reflexivity.
Qed.

Lemma bit_set_bits (cache i : Z) :
  0 <= i < 16 ->
  Z.testbit (uint16 (Z.lor cache (Z.shiftl 1 1))) i
  = if (1 <=? i) && (i <? 1 + 1) then Z.testbit 1 (i - 1) else Z.testbit cache i.
Proof.
  intros Hi. unfold uint16. change 65536 with (2 ^ 16).
  rewrite Z.mod_pow2_bits_low, Z.lor_spec by lia.
  change (Z.shiftl 1 1) with (Z.shiftl (Z.ones 1) 1).
  rewrite Z.shiftl_spec, Z.testbit_ones by lia.
  destruct (Z.eq_dec i 1) as [->|Hne]; [cbn; apply orb_true_r|].
  replace ((1 <=? i) && (i <? 1 + 1)) with false
    by (symmetry; apply andb_false_iff;
        destruct (Z.leb_spec 1 i); [right; apply Z.ltb_ge; lia|left; reflexivity]).
  replace ((0 <=? i - 1) && (i - 1 <? 1)) with false
    by (symmetry; apply andb_false_iff;
        destruct (Z.leb_spec 0 (i - 1)); [right; apply Z.ltb_ge; lia|left; reflexivity]).
  apply orb_false_r.
Qed.

Lemma bit_clear_bits (cache i : Z) :
  0 <= i < 16 ->
  Z.testbit (uint16 (Z.land cache (Z.lnot (Z.shiftl 1 1)))) i
  = if (1 <=? i) && (i <? 1 + 1) then Z.testbit 0 (i - 1) else Z.testbit cache i.
Proof.
  intros Hi. unfold uint16. change 65536 with (2 ^ 16).
  rewrite Z.mod_pow2_bits_low, Z.land_spec, Z.lnot_spec by lia.
  change (Z.shiftl 1 1) with (Z.shiftl (Z.ones 1) 1).
  rewrite Z.shiftl_spec, Z.testbit_ones by lia.
  destruct (Z.eq_dec i 1) as [->|Hne]; [cbn; apply andb_false_r|].
  replace ((1 <=? i) && (i <? 1 + 1)) with false
    by (symmetry; apply andb_false_iff;
        destruct (Z.leb_spec 1 i); [right; apply Z.ltb_ge; lia|left; reflexivity]).
  replace ((0 <=? i - 1) && (i - 1 <? 1)) with false
    by (symmetry; apply andb_false_iff;
        destruct (Z.leb_spec 0 (i - 1)); [right; apply Z.ltb_ge; lia|left; reflexivity]).
  apply andb_true_r.
Qed.

Lemma uint16_range (z : Z) : 0 <= uint16 z < 65536.
Proof. unfold uint16. apply Z.mod_pos_bound. lia. Qed.

(** C1 as stated fails: with the register write failing, [veml7700_set_gain]
    has already stored the new gain bits in [config_cache] (0 becomes
    0x0800) and returns with them in place; [current_gain] is unchanged. *)
Lemma set_gain_failed_write_changes_config_cache :
  initialized ready_sensor = true
  /\ config_cache ready_sensor = 0
  /\ veml7700_set_gain (scripted_world [(PICO_ERROR_GENERIC, [])]) (Some ready_sensor)
                       VEML7700_GAIN_2
     = (VEML7700_ERROR_I2C_TX,
        Some (mkSensor (Some 0) 0x0800 0 true VEML7700_GAIN_1 VEML7700_IT_100MS),
        mkWorld []
          [I2C_write (Some 0) VEML7700_I2C_ADDRESS [VEML7700_REG_ALS_CONF; 0x00; 0x08] false]
          0)
  /\ 0x0800 <> config_cache ready_sensor.
Proof.
  split; [reflexivity|]. split; [reflexivity|]. split; [vm_compute; reflexivity|].
  vm_compute. discriminate.
Qed.

Section Setters.
Context {HW : Type} `{I2CHardware HW}.

(** C1, amended. For an initialized handle and a field value that fits its
    field, each of the gain, integration-time, persistence and interrupt
    setters stores the new field bits in [config_cache] before the register
    write and keeps them whatever the write returns, as [veml7700_init]
    does; the write carries the updated shadow. What a failed write leaves
    unchanged is [current_gain] and [current_it], which the gain and
    integration-time setters commit only after a successful write. *)
Theorem setter_updates_shadow_before_write
    (w : world HW) (s : veml7700_sensor_t) (c : veml7700_call) (lo width v : Z)
    (status : Z) (sensor' : option veml7700_sensor_t) (w' : world HW) :
  initialized s = true ->
  config_field c = Some (lo, width, v) ->
  0 <= v < 2 ^ width ->
  veml7700_invoke w (Some s) c = (status, sensor', w') ->
  exists s',
    sensor' = Some s'
    /\ 0 <= config_cache s' < 65536
    /\ (forall i, 0 <= i < 16 ->
          Z.testbit (config_cache s') i
          = if (lo <=? i) && (i <? lo + width)
            then Z.testbit v (i - lo) else Z.testbit (config_cache s) i)
    /\ trace w' = trace w ++ [I2C_write (i2c_port s) VEML7700_I2C_ADDRESS
                                (write_frame VEML7700_REG_ALS_CONF (config_cache s')) false]
    /\ (status <> VEML7700_OK ->
        current_gain s' = current_gain s /\ current_it s' = current_it s)
    /\ (status = VEML7700_OK ->
        match c with
        | Call_set_gain gain => current_gain s' = gain
        | Call_set_integration_time it => current_it s' = it
        | _ => True
        end).
Proof.
  intros Hinit Hfield Hv Hrun.
  destruct c; try discriminate Hfield; injection Hfield as <- <- Hval;
    cbv beta iota delta [veml7700_invoke] in Hrun;
    unfold veml7700_set_gain, veml7700_set_integration_time,
           veml7700_set_persistence, veml7700_enable_interrupt in Hrun;
    rewrite Hinit in Hrun; cbv beta iota zeta delta [negb] in Hrun;
    match type of Hrun with
    | context [veml7700_write_reg ?w0 (Some ?s0) ?reg ?d] =>
        rewrite (write_reg_ready w0 s0 reg d) in Hrun
          by (try destruct enable; exact Hinit);
        destruct (hw_write (hw w0) (i2c_port s0) VEML7700_I2C_ADDRESS
                           (write_frame reg d) false) as [r h]
    end;
    destruct (Z.eqb_spec r 3) as [Hr|Hr];
    cbv beta iota delta [Z.eqb VEML7700_OK VEML7700_ERROR_I2C_TX] in Hrun;
    apply pair_equal_spec in Hrun; destruct Hrun as [Hrun <-];
    apply pair_equal_spec in Hrun; destruct Hrun as [<- <-];
    (eexists; split; [reflexivity|]).
  all: try (destruct enable).
  all: subst v.
  all: unfold set_current_gain, set_current_it, set_config_cache, after_call;
    cbn [config_cache current_gain current_it i2c_port trace].
  all: (split; [apply uint16_range|]).
  all: (split;
        [intros i Hi;
         first [ apply bit_set_bits; assumption
               | apply bit_clear_bits; assumption
               | match goal with
                 | |- context [Z.shiftl (uint16 ?x) _] =>
                     is_var x;
                     replace (uint16 x) with x
                       by (unfold uint16; rewrite Z.mod_small;
                           [reflexivity
                           |change (2 ^ 2) with 4 in Hv; change (2 ^ 4) with 16 in Hv; lia])
                 end;
                 first [ apply (field_store_bits (config_cache s) _ 11 2 i)
                       | apply (field_store_bits (config_cache s) _ 6 4 i)
                       | apply (field_store_bits (config_cache s) _ 4 2 i) ];
                 first [lia | assumption] ]|]).
  all: (split; [reflexivity|]).
  all: split; intros Hst; first [reflexivity | exact I | split; reflexivity
                                | exfalso; apply Hst; reflexivity
                                | exfalso; vm_compute in Hst; discriminate Hst].
Qed.

End Setters.

(** The failed [veml7700_set_gain] call shown above: bits 11-12
    of the shadow carry the new gain, [current_gain] is unchanged. *)
Lemma setter_updates_shadow_before_write_witness :
  let w := scripted_world [(PICO_ERROR_GENERIC, [])] in
  let s' := mkSensor (Some 0) 0x0800 0 true VEML7700_GAIN_1 VEML7700_IT_100MS in
  let w' := mkWorld []
              [I2C_write (Some 0) VEML7700_I2C_ADDRESS [VEML7700_REG_ALS_CONF; 0x00; 0x08]
                         false] 0 in
  (initialized ready_sensor = true
   /\ config_field (Call_set_gain VEML7700_GAIN_2) = Some (11, 2, VEML7700_GAIN_2)
   /\ 0 <= VEML7700_GAIN_2 < 2 ^ 2
   /\ veml7700_invoke w (Some ready_sensor) (Call_set_gain VEML7700_GAIN_2)
      = (VEML7700_ERROR_I2C_TX, Some s', w'))
  /\ exists s'',
       Some s' = Some s''
       /\ Z.testbit (config_cache s'') 11 = Z.testbit VEML7700_GAIN_2 0
       /\ current_gain s'' = current_gain ready_sensor.
Proof.
  intros w s' w'.
  assert (Hrun : veml7700_invoke w (Some ready_sensor) (Call_set_gain VEML7700_GAIN_2)
                 = (VEML7700_ERROR_I2C_TX, Some s', w')) by (vm_compute; reflexivity).
  assert (Hv : 0 <= VEML7700_GAIN_2 < 2 ^ 2) by (unfold VEML7700_GAIN_2; lia).
  split; [repeat split; solve [reflexivity | exact Hrun | apply Hv]|].
  destruct (setter_updates_shadow_before_write
              w ready_sensor (Call_set_gain VEML7700_GAIN_2) 11 2 VEML7700_GAIN_2
              _ _ _ eq_refl eq_refl Hv Hrun)
    as [s'' [Hs [_ [Hbits [_ [Hkeep _]]]]]].
  exists s''. split; [exact Hs|]. split.
  - rewrite (Hbits 11) by lia. reflexivity.
  - apply Hkeep. vm_compute. discriminate.
Defined.

End VEML7700_Properties.

(* ================================================================== *)
(** ** Byte pairs *)

Lemma lor_byte_pair (hi lo : Z) :
  0 <= lo < 256 -> Z.lor (Z.shiftl hi 8) lo = hi * 256 + lo.
Proof.
  intros Hlo.
  assert (Hdiv : Z.lor (Z.shiftl hi 8) lo / 256 = hi).
  { change 256 with (2 ^ 8). rewrite <- Z.shiftr_div_pow2 by lia.
    rewrite Z.shiftr_lor, Z.shiftr_shiftl_l by lia.
    rewrite Z.sub_diag, Z.shiftl_0_r, Z.shiftr_div_pow2 by lia.
    change (2 ^ 8) with 256. rewrite Z.div_small by lia. apply Z.lor_0_r. }
  assert (Hmod : Z.lor (Z.shiftl hi 8) lo mod 256 = lo).
  { change 256 with (2 ^ 8). rewrite <- Z.land_ones by lia.
    rewrite Z.land_lor_distr_l, !Z.land_ones by lia.
    rewrite Z.shiftl_mul_pow2 by lia. rewrite Z.mod_mul by lia.
    change (2 ^ 8) with 256. rewrite Z.mod_small by lia. reflexivity. }
  pose proof (Z.div_mod (Z.lor (Z.shiftl hi 8) lo) 256 ltac:(lia)) as Hdm.
  rewrite Hdiv, Hmod in Hdm. lia.
Qed.

Lemma uint8_range (z : Z) : 0 <= uint8 z < 256.
Proof. unfold uint8. apply Z.mod_pos_bound. lia. Qed.

Lemma int8_range (z : Z) : -128 <= int8 z <= 127.
Proof.
  unfold int8. pose proof (Z.mod_pos_bound z 256 ltac:(lia)) as Hb.
  destruct (Z.ltb_spec (z mod 256) 128); lia.
Qed.

Lemma int8_congruent (z : Z) : int8 z mod 256 = z mod 256.
Proof.
  unfold int8. destruct (Z.ltb_spec (z mod 256) 128).
  - apply Z.mod_mod. lia.
  - replace (z mod 256 - 256) with (z mod 256 + (-1) * 256) by lia.
    rewrite Z.mod_add by lia. apply Z.mod_mod. lia.
Qed.

(* ================================================================== *)
(** ** CMPS12: reading the compass *)

Module CMPS12_Read_Properties.
Import CMPS12.

Section Read.
Context {HW : Type} `{I2CHardware HW}.

Lemma cmps12_read_unfold (w : world HW) (compass : cmps12_t) (stack : list Z) :
  cmps12_read w compass stack
  = let port := i2c compass in
    let '(r1, h1) := hw_write (hw w) port CMPS12_ADDRESS [ANGLE_8_REG] true in
    let w1 := after_call w h1 (I2C_write port CMPS12_ADDRESS [ANGLE_8_REG] true) in
    if r1 <? 0 then (false, compass, w1)
    else
      let '(r2, dst, h2) := hw_read h1 port CMPS12_ADDRESS 5 false in
      let w2 := after_call w1 h2 (I2C_read port CMPS12_ADDRESS 5 false) in
      if r2 <? 0 then (false, compass, w2)
      else
        let data := fun i : nat => uint8 (nth i dst (nth i stack 0)) in
        (true,
         mkCompass port (data 0%nat)
           (uint16 (Z.lor (Z.shiftl (data 1%nat) 8) (data 2%nat)))
           (int8 (data 3%nat)) (int8 (data 4%nat)),
         w2).
Proof.
  unfold cmps12_read, i2c_write_blocking, i2c_read_blocking, after_call.
  change (uint8 ANGLE_8_REG) with ANGLE_8_REG. cbv zeta.
  destruct (hw_write _ _ _ _ _) as [r1 h1].
  destruct (r1 <? 0); [reflexivity|]. cbn [hw trace slept_ms].
  destruct (hw_read _ _ _ _ _) as [[r2 data] h2].
  destruct (r2 <? 0); reflexivity.
Qed.

(** A successful [cmps12_read] whose read delivered all five bytes stores
    the reply, whatever the buffer held before: the 8-bit angle, the
    16-bit angle as high byte times 256 plus low byte, and pitch and roll
    as the signed readings of their bytes. The fields stay within the
    ranges of their types, the bus handle is kept, and the bus saw one
    write of the register number 1 without stop followed by one 5-byte
    read, both at address 0x60 on the stored port. *)
Theorem cmps12_read_decodes_reply
    (w : world HW) (compass compass' : cmps12_t) (stack : list Z) (w' : world HW)
    (r1 r2 : Z) (h1 h2 : HW) (data : list Z) :
  hw_write (hw w) (i2c compass) CMPS12_ADDRESS [ANGLE_8_REG] true = (r1, h1) ->
  hw_read h1 (i2c compass) CMPS12_ADDRESS 5 false = (r2, data, h2) ->
  List.length data = 5%nat ->
  cmps12_read w compass stack = (true, compass', w') ->
  exists b0 b1 b2 b3 b4,
    [b0; b1; b2; b3; b4] = map uint8 data
    /\ 0 <= r1 /\ 0 <= r2
    /\ i2c compass' = i2c compass
    /\ angle8 compass' = b0
    /\ angle16 compass' = b1 * 256 + b2
    /\ pitch compass' = (if b3 <? 128 then b3 else b3 - 256)
    /\ roll compass' = (if b4 <? 128 then b4 else b4 - 256)
    /\ 0 <= angle8 compass' < 256
    /\ 0 <= angle16 compass' < 65536
    /\ -128 <= pitch compass' <= 127
    /\ -128 <= roll compass' <= 127
    /\ trace w' = trace w ++ [I2C_write (i2c compass) CMPS12_ADDRESS [ANGLE_8_REG] true;
                              I2C_read (i2c compass) CMPS12_ADDRESS 5 false].
Proof.
  intros Hw Hr Hlen. rewrite cmps12_read_unfold. cbv zeta. rewrite Hw.
  destruct (Z.ltb_spec r1 0) as [Hr1|Hr1]; [discriminate|].
  rewrite Hr.
  destruct (Z.ltb_spec r2 0) as [Hr2|Hr2]; [discriminate|].
  intros Hrun. apply pair_equal_spec in Hrun. destruct Hrun as [Hrun <-].
  apply pair_equal_spec in Hrun. destruct Hrun as [_ <-].
  destruct data as [|d0 [|d1 [|d2 [|d3 [|d4 [|d5 rest]]]]]]; try discriminate Hlen.
  cbn [nth map].
  pose proof (uint8_range d0) as H0.
  pose proof (uint8_range d1) as H1.
  pose proof (uint8_range d2) as H2.
  pose proof (uint8_range d3) as H3.
  pose proof (uint8_range d4) as H4.
  assert (Hangle : uint16 (Z.lor (Z.shiftl (uint8 d1) 8) (uint8 d2))
                   = uint8 d1 * 256 + uint8 d2).
  { rewrite lor_byte_pair by assumption. unfold uint16. apply Z.mod_small. lia. }
  assert (Hsigned : forall b, 0 <= b < 256 -> int8 b = if b <? 128 then b else b - 256).
  { intros b Hb. unfold int8. rewrite Z.mod_small by lia. reflexivity. }
  exists (uint8 d0), (uint8 d1), (uint8 d2), (uint8 d3), (uint8 d4).
  cbn [i2c angle8 angle16 pitch roll].
  rewrite Hangle, !Hsigned by assumption.
  repeat split; try assumption; try lia.
  - destruct (Z.ltb_spec (uint8 d3) 128); lia.
  - destruct (Z.ltb_spec (uint8 d3) 128); lia.
  - destruct (Z.ltb_spec (uint8 d4) 128); lia.
  - destruct (Z.ltb_spec (uint8 d4) 128); lia.
  - unfold after_call. cbn [trace]. rewrite <- app_assoc. reflexivity.
Qed.

(** [cmps12_read] succeeds exactly when neither bus call returned a
    negative value: the transfer counts are not compared with the
    requested 1 and 5 bytes. When it fails the struct is left as it was,
    and after a failed write of the register number no read is issued. *)
Theorem cmps12_read_fails_only_on_negative_result
    (w : world HW) (compass compass' : cmps12_t) (stack : list Z)
    (ok : bool) (w' : world HW)
    (r1 r2 : Z) (h1 h2 : HW) (data : list Z) :
  cmps12_read w compass stack = (ok, compass', w') ->
  hw_write (hw w) (i2c compass) CMPS12_ADDRESS [ANGLE_8_REG] true = (r1, h1) ->
  hw_read h1 (i2c compass) CMPS12_ADDRESS 5 false = (r2, data, h2) ->
  (ok = true <-> 0 <= r1 /\ 0 <= r2)
  /\ (ok = false -> compass' = compass)
  /\ (r1 < 0 ->
      trace w' = trace w ++ [I2C_write (i2c compass) CMPS12_ADDRESS [ANGLE_8_REG] true]
      /\ hw w' = h1).
Proof.
  rewrite cmps12_read_unfold. cbv zeta. intros Hrun Hw Hr.
  rewrite Hw in Hrun.
  destruct (Z.ltb_spec r1 0) as [Hr1|Hr1].
  - injection Hrun as <- <- <-. repeat split; try lia; try discriminate; reflexivity.
  - rewrite Hr in Hrun. destruct (Z.ltb_spec r2 0) as [Hr2|Hr2].
    + injection Hrun as <- <- <-. repeat split; try lia; try discriminate; reflexivity.
    + apply pair_equal_spec in Hrun. destruct Hrun as [Hrun <-].
      apply pair_equal_spec in Hrun. destruct Hrun as [<- <-].
      repeat split; try lia; try discriminate.
Qed.

End Read.

(** The reply [0x80; 0x05; 0x00; 0xFD; 0x02] into a buffer that held
    [0xAA] in every byte: angle 128/255 of a turn, 128.0 degrees, pitch
    -3, roll 2. *)
Lemma cmps12_read_decodes_reply_witness :
  let compass := mkCompass (Some 0) 0 0 0 0 in
  let stack := [0xAA; 0xAA; 0xAA; 0xAA; 0xAA] in
  let w := scripted_world [(1, []); (5, [0x80; 0x05; 0x00; 0xFD; 0x02])] in
  (List.length [0x80; 0x05; 0x00; 0xFD; 0x02] = 5%nat
   /\ fst (cmps12_read w compass stack) = (true, mkCompass (Some 0) 0x80 1280 (-3) 2))
  /\ exists compass',
       snd (fst (cmps12_read w compass stack)) = compass'
       /\ angle16 compass' = 0x05 * 256 + 0x00
       /\ pitch compass' = -3.
Proof.
  intros compass stack w.
  split; [split; [reflexivity|vm_compute; reflexivity]|].
  destruct (cmps12_read w compass stack) as [[ok compass'] w'] eqn:Hrun.
  assert (Hok : ok = true) by (vm_compute in Hrun; congruence).
  subst ok.
  destruct (cmps12_read_decodes_reply
              w compass compass' stack w' 1 5 [(5, [0x80; 0x05; 0x00; 0xFD; 0x02])] []
              [0x80; 0x05; 0x00; 0xFD; 0x02])
    as [b0 [b1 [b2 [b3 [b4 [Hb [_ [_ [_ [_ [Ha [Hp _]]]]]]]]]]]];
    [reflexivity|reflexivity|reflexivity|exact Hrun|].
  exists compass'. split; [reflexivity|].
  vm_compute in Hb. injection Hb as -> -> -> -> ->.
  split; [exact Ha|exact Hp].
Defined.

(** A short read, 2 of 5 bytes, is taken for a success; the three bytes
    that were not delivered are whatever the buffer held, here [0xAA]. *)
Lemma cmps12_read_fails_only_on_negative_result_witness :
  let compass := mkCompass (Some 0) 9 9 9 9 in
  let stack := [0xAA; 0xAA; 0xAA; 0xAA; 0xAA] in
  let w := scripted_world [(1, []); (2, [0x80; 0x05])] in
  fst (cmps12_read w compass stack) = (true, mkCompass (Some 0) 0x80 1450 (-86) (-86))
  /\ (true = true <-> 0 <= 1 /\ 0 <= 2).
Proof.
  intros compass stack w.
  split; [vm_compute; reflexivity|].
  destruct (cmps12_read w compass stack) as [[ok compass'] w'] eqn:Hrun.
  destruct (cmps12_read_fails_only_on_negative_result
              w compass compass' stack ok w' 1 2 [(2, [0x80; 0x05])] [] [0x80; 0x05] Hrun)
    as [Hiff _]; [reflexivity|reflexivity|].
  assert (Hok : ok = true) by (apply Hiff; lia).
  subst ok. exact Hiff.
Defined.

End CMPS12_Read_Properties.

(* ================================================================== *)
(** ** CMPS12: the sector of each compass point *)

Module CMPS12_Sector_Properties.
Import CMPS12 CMPS12_Properties.

Lemma directions_distinct : NoDup directions.
Proof.
  unfold directions.
  repeat (constructor; [cbn [In]; intuition discriminate|]). constructor.
Qed.

Lemma direction_index_injective (i j : Z) :
  0 <= i < 16 -> 0 <= j < 16 ->
  nth_error directions (Z.to_nat i) = nth_error directions (Z.to_nat j) -> i = j.
Proof.
  intros Hi Hj Heq.
  assert (Hnat : Z.to_nat i = Z.to_nat j).
  { apply (proj1 (NoDup_nth_error directions) directions_distinct); [|exact Heq].
    change (List.length directions) with 16%nat. lia. }
  lia.
Qed.

(** The index of the quotient by 90, reduced modulo 16, read off the
    remainder modulo [90 * 16]. *)
Lemma quotient_index (x : Z) : (x / 90) mod 16 = (x mod 1440) / 90.
Proof.
  change 1440 with (90 * 16). rewrite Z.rem_mul_r by lia.
  pose proof (Z.mod_pos_bound x 90 ltac:(lia)) as Hb.
  rewrite Z.mul_comm, Z.div_add by lia.
  rewrite (Z.div_small (x mod 90)) by lia. reflexivity.
Qed.

(** Every compass point owns the sector of 22.5 degrees centred on it,
    for every [uint16_t] argument taken modulo 360: with the angle in
    quarter degrees and moved by 11.25 degrees, point [i] is returned
    exactly for the values from [90 * i] up to, but not including,
    [90 * i + 90]. *)
Theorem cardinal_direction_sector (angle i : Z) :
  0 <= angle < 65536 -> 0 <= i < 16 ->
  (cmps12_get_cardinal_direction angle = nth_error directions (Z.to_nat i)
   <-> 90 * i <= (4 * (angle mod 360) + 45) mod 1440 < 90 * i + 90).
Proof.
  intros Ha Hi.
  rewrite (cardinal_direction_exact angle Ha). unfold spec_direction.
  rewrite spec_round_eq, quotient_index.
  assert (Hred : (4 * angle + 45) mod 1440 = (4 * (angle mod 360) + 45) mod 1440).
  { rewrite (Z.div_mod angle 360) at 1 by lia.
    replace (4 * (360 * (angle / 360) + angle mod 360) + 45)
      with (4 * (angle mod 360) + 45 + (angle / 360) * 1440) by lia.
    apply Z.mod_add. lia. }
  rewrite Hred.
  set (y := (4 * (angle mod 360) + 45) mod 1440).
  assert (Hy : 0 <= y < 1440) by (apply Z.mod_pos_bound; lia).
  assert (Hq : 0 <= y / 90 < 16).
  { split; [apply Z.div_pos; lia|apply Z.div_lt_upper_bound; lia]. }
  pose proof (Z.div_mod y 90 ltac:(lia)) as Hdm.
  pose proof (Z.mod_pos_bound y 90 ltac:(lia)) as Hm.
  split.
  - intros Heq. apply direction_index_injective in Heq; [lia|lia|lia].
  - intros Hsector. replace (y / 90) with i by nia. reflexivity.
Qed.

(** 349 degrees lies in the sector of "N", point 0. *)
Lemma cardinal_direction_sector_witness :
  (0 <= 349 < 65536 /\ 0 <= 0 < 16)
  /\ (cmps12_get_cardinal_direction 349 = nth_error directions (Z.to_nat 0)
      <-> 90 * 0 <= (4 * (349 mod 360) + 45) mod 1440 < 90 * 0 + 90).
Proof.
  split; [lia|]. apply (cardinal_direction_sector 349 0); lia.
Defined.

End CMPS12_Sector_Properties.

(* ================================================================== *)
(** ** VEML7700: initialization, edge cases and the register shadows *)

Module VEML7700_Operation_Properties.
Import VEML7700 VEML7700_Properties.

Section Init.
Context {HW : Type} `{I2CHardware HW}.

(** When [veml7700_init] returns [VEML7700_OK] the handle holds the
    default configuration (shadow 0x0000, power saving 0x0000, gain x1,
    100 ms), is initialized, and its cached gain and integration time
    agree with the shadow; the bus saw exactly the ID read followed by the
    writes of the configuration (0x0000), power-saving (0x0000), high
    threshold (0xFFFF) and low threshold (0x0000) registers, in this
    order, and the call slept 10 ms. *)
Theorem init_success_postcondition
    (w : world HW) (s : veml7700_sensor_t) (port : i2c_inst_t)
    (sda_pin scl_pin baudrate : Z)
    (sensor' : option veml7700_sensor_t) (w' : world HW) :
  veml7700_init w (Some s) (Some port) sda_pin scl_pin baudrate
  = (VEML7700_OK, sensor', w') ->
  sensor' = Some (mkSensor (Some port) 0 0 true VEML7700_GAIN_1 VEML7700_IT_100MS)
  /\ shadow_consistent (mkSensor (Some port) 0 0 true VEML7700_GAIN_1 VEML7700_IT_100MS)
  /\ slept_ms w' = slept_ms w + 10
  /\ trace w'
     = trace w
       ++ [I2C_write (Some port) VEML7700_I2C_ADDRESS [VEML7700_REG_ID] true;
           I2C_read (Some port) VEML7700_I2C_ADDRESS 2 false;
           I2C_write (Some port) VEML7700_I2C_ADDRESS [VEML7700_REG_ALS_CONF; 0; 0] false;
           I2C_write (Some port) VEML7700_I2C_ADDRESS [VEML7700_REG_POWER_SAVING; 0; 0] false;
           I2C_write (Some port) VEML7700_I2C_ADDRESS [VEML7700_REG_ALS_WH; 0xFF; 0xFF] false;
           I2C_write (Some port) VEML7700_I2C_ADDRESS [VEML7700_REG_ALS_WL; 0; 0] false].
Proof.
  intros Hrun. unfold veml7700_init in Hrun.
  match type of Hrun with
  | context [veml7700_read_reg ?w0 (Some ?s0) ?reg (Some ?c)] =>
      rewrite (read_reg_ready w0 s0 reg c eq_refl) in Hrun
  end.
  cbv zeta in Hrun.
  destruct (hw_write _ _ _ _ _) as [r1 h1].
  destruct (Z.eqb_spec r1 1); [|discriminate Hrun].
  destruct (hw_read _ _ _ _ _) as [[r2 dst] h2].
  destruct (Z.eqb_spec r2 2); [|discriminate Hrun].
  cbn [negb Z.eqb VEML7700_OK] in Hrun.
  match type of Hrun with
  | context [if ?b then _ else _] => destruct b; [discriminate Hrun|]
  end.
  repeat
    match type of Hrun with
    | context [veml7700_write_reg ?w0 (Some ?s0) ?reg ?d] =>
        rewrite (write_reg_ready w0 s0 reg d eq_refl) in Hrun;
        destruct (hw_write (hw w0) (i2c_port s0) VEML7700_I2C_ADDRESS
                           (write_frame reg d) false) as [? ?];
        match type of Hrun with
        | context [?r =? 3] => destruct (Z.eqb_spec r 3)
        end;
        cbn [negb Z.eqb VEML7700_OK VEML7700_ERROR_I2C_TX] in Hrun;
        [|discriminate Hrun]
    end.
  apply pair_equal_spec in Hrun. destruct Hrun as [Hrun <-].
  apply pair_equal_spec in Hrun. destruct Hrun as [_ <-].
  split; [reflexivity|]. split; [split; reflexivity|]. split; [reflexivity|].
  unfold sleep_ms, after_call. cbn [trace]. rewrite <- !app_assoc. reflexivity.
Qed.

(** The guard of every operation on an existing handle. *)
Lemma invoke_unready (w : world HW) (sensor : option veml7700_sensor_t)
    (c : veml7700_call) :
  not_ready sensor = true ->
  veml7700_invoke w sensor c = (VEML7700_ERROR_CONFIG, sensor, w).
Proof.
  destruct sensor as [[port cache psm flag gain it]|]; cbn [not_ready initialized negb].
  - intros Hflag. apply negb_true_iff in Hflag. subst flag. destruct c; reflexivity.
  - intros _. destruct c; reflexivity.
Qed.

(** When [veml7700_init], given a handle and a bus, does not return
    [VEML7700_OK], it returns [VEML7700_ERROR_INIT] or
    [VEML7700_ERROR_I2C_TX] (a failed read of the ID register, in either
    phase, is reported as [VEML7700_ERROR_INIT]) and leaves the handle
    uninitialized on the given port, so that every later call on it is
    rejected with [VEML7700_ERROR_CONFIG] and no bus traffic. With
    [VEML7700_ERROR_INIT] the cached registers are untouched and no
    register was written; with [VEML7700_ERROR_I2C_TX] the shadow already
    holds the default configuration. *)
Theorem init_failure_leaves_handle_unready
    (w : world HW) (s : veml7700_sensor_t) (port : i2c_inst_t)
    (sda_pin scl_pin baudrate status : Z)
    (sensor' : option veml7700_sensor_t) (w' : world HW) :
  veml7700_init w (Some s) (Some port) sda_pin scl_pin baudrate = (status, sensor', w') ->
  status <> VEML7700_OK ->
  (status = VEML7700_ERROR_INIT \/ status = VEML7700_ERROR_I2C_TX)
  /\ exists s',
       sensor' = Some s'
       /\ initialized s' = false
       /\ i2c_port s' = Some port
       /\ (status = VEML7700_ERROR_INIT ->
           s' = set_initialized false (set_i2c_port (Some port) s)
           /\ (trace w' = trace w ++ [I2C_write (Some port) VEML7700_I2C_ADDRESS
                                                [VEML7700_REG_ID] true]
               \/ trace w' = trace w ++ [I2C_write (Some port) VEML7700_I2C_ADDRESS
                                                   [VEML7700_REG_ID] true;
                                         I2C_read (Some port) VEML7700_I2C_ADDRESS 2 false]))
       /\ (status = VEML7700_ERROR_I2C_TX ->
           config_cache s' = 0
           /\ current_gain s' = VEML7700_GAIN_1
           /\ current_it s' = VEML7700_IT_100MS)
       /\ (forall (w2 : world HW) (c : veml7700_call),
             veml7700_invoke w2 sensor' c = (VEML7700_ERROR_CONFIG, sensor', w2)).
Proof.
  intros Hrun Hfail. unfold veml7700_init in Hrun.
  match type of Hrun with
  | context [veml7700_read_reg ?w0 (Some ?s0) ?reg (Some ?c)] =>
      rewrite (read_reg_ready w0 s0 reg c eq_refl) in Hrun
  end.
  cbv zeta in Hrun.
  destruct (hw_write _ _ _ _ _) as [r1 h1].
  destruct (Z.eqb_spec r1 1);
    [destruct (hw_read _ _ _ _ _) as [[r2 dst] h2];
     destruct (Z.eqb_spec r2 2);
     [cbn [negb Z.eqb VEML7700_OK] in Hrun;
      match type of Hrun with
      | context [if ?b then _ else _] => destruct b
      end|]|].
  2: repeat
    match type of Hrun with
    | context [veml7700_write_reg ?w0 (Some ?s0) ?reg ?d] =>
        rewrite (write_reg_ready w0 s0 reg d eq_refl) in Hrun;
        destruct (hw_write (hw w0) (i2c_port s0) VEML7700_I2C_ADDRESS
                           (write_frame reg d) false) as [? ?];
        match type of Hrun with
        | context [?r =? 3] => destruct (Z.eqb_spec r 3)
        end;
        cbn [negb Z.eqb VEML7700_OK VEML7700_ERROR_I2C_TX] in Hrun
    end.
  all: cbn [negb Z.eqb VEML7700_OK VEML7700_ERROR_I2C_TX VEML7700_ERROR_I2C_RX] in Hrun.
  all: apply pair_equal_spec in Hrun; destruct Hrun as [Hrun <-];
    apply pair_equal_spec in Hrun; destruct Hrun as [<- <-].
  all: try (exfalso; apply Hfail; reflexivity).
  all: (split; [first [left; reflexivity | right; reflexivity]|]).
  all: eexists; split; [reflexivity|]; split; [reflexivity|]; split; [reflexivity|].
  all: split; [intros Hst; first [discriminate Hst | idtac]|].
  all: try (split; [reflexivity|]; unfold after_call; cbn [trace];
            rewrite <- ?app_assoc; first [left; reflexivity | right; reflexivity]).
  all: split; [intros Hst; first [discriminate Hst | repeat split; reflexivity]|].
  all: intros w2 c; apply invoke_unready; reflexivity.
Qed.
End Init.

Section Edge.
Context {HW : Type} `{I2CHardware HW}.

(** On a ready handle, every read operation called with a NULL output
    pointer returns [VEML7700_ERROR_INVALID_ARG] and issues no bus call. *)
Theorem null_output_rejected_without_bus_traffic
    (w : world HW) (s : veml7700_sensor_t) (c : veml7700_call) :
  initialized s = true -> null_output c = true ->
  veml7700_invoke w (Some s) c = (VEML7700_ERROR_INVALID_ARG, Some s, w).
Proof.
  intros Hinit Hnull. destruct s as [port cache psm flag gain it].
  cbn in Hinit. subst flag.
  destruct c as [[?|]|[?|]|[?|]| | | | | | |[?|]| | | | |[?|]];
    try discriminate Hnull; reflexivity.
Qed.

Lemma frame_bytes_decode (data : Z) :
  uint16 (Z.lor (Z.shiftl (uint8 (uint8 (Z.land (Z.shiftr data 8) 0xFF))) 8)
                (uint8 (uint8 (Z.land data 0xFF))))
  = uint16 data.
Proof.
  change 0xFF with (Z.ones 8). rewrite !Z.land_ones, Z.shiftr_div_pow2 by lia.
  change (2 ^ 8) with 256. unfold uint8. rewrite !Z.mod_mod by lia.
  pose proof (Z.mod_pos_bound data 256 ltac:(lia)) as Hlo.
  pose proof (Z.mod_pos_bound (data / 256) 256 ltac:(lia)) as Hhi.
  rewrite lor_byte_pair by lia.
  unfold uint16. change 65536 with (256 * 256).
  rewrite (Z.rem_mul_r data 256 256) by lia.
  rewrite Z.mod_small by lia. lia.
Qed.

(** Round trip of a register value: when the device answers a register
    read with the two payload bytes that [veml7700_write_reg] sends for
    [data] (low byte first), [veml7700_read_reg] returns [data] reduced to
    16 bits. *)
Theorem register_value_round_trip
    (w : world HW) (s : veml7700_sensor_t) (reg reg' data cell : Z) (h1 h2 : HW) :
  initialized s = true ->
  hw_write (hw w) (i2c_port s) VEML7700_I2C_ADDRESS [uint8 reg] true = (1, h1) ->
  hw_read h1 (i2c_port s) VEML7700_I2C_ADDRESS 2 false
  = (2, tl (write_frame reg' data), h2) ->
  fst (veml7700_read_reg w (Some s) reg (Some cell))
  = (VEML7700_OK, Some (data mod 65536)).
Proof.
  intros Hinit Hw Hr. rewrite (read_reg_ready w s reg cell Hinit). cbv zeta.
  rewrite Hw. cbn [Z.eqb Pos.eqb]. rewrite Hr. cbn [Z.eqb Pos.eqb fst].
  unfold write_frame. cbn [tl nth].
  rewrite frame_bytes_decode. reflexivity.
Qed.

(** A failed [veml7700_read_lux] on a ready handle stores [-1.0f], leaves
    the handle as it was and returns the error of the register read that
    failed, [VEML7700_ERROR_I2C_TX] or [VEML7700_ERROR_I2C_RX]. *)
Theorem read_lux_failure_reports_minus_one
    (w : world HW) (s : veml7700_sensor_t) (lux0 : spec_float) (status : Z)
    (sensor' : option veml7700_sensor_t) (lux' : option spec_float) (w' : world HW) :
  initialized s = true ->
  veml7700_read_lux w (Some s) (Some lux0) = (status, sensor', lux', w') ->
  status <> VEML7700_OK ->
  lux' = Some (Binary32.of_Z (-1))
  /\ sensor' = Some s
  /\ (status = VEML7700_ERROR_I2C_TX \/ status = VEML7700_ERROR_I2C_RX).
Proof.
  intros Hinit Hrun Hfail. rewrite (read_lux_ready w s lux0 Hinit) in Hrun.
  rewrite (read_reg_ready w s _ _ Hinit) in Hrun. cbv zeta in Hrun.
  destruct s as [port cache psm flag gain it]. cbn in Hinit. subst flag.
  destruct (hw_write _ _ _ _ _) as [r1 h1].
  destruct (Z.eqb_spec r1 1);
    [destruct (hw_read _ _ _ _ _) as [[r2 dst] h2]; destruct (Z.eqb_spec r2 2)|].
  1: { cbn [negb Z.eqb VEML7700_OK] in Hrun.
       rewrite read_reg_ready in Hrun by reflexivity. cbv zeta in Hrun.
       destruct (hw_write _ _ _ _ _) as [r3 h3].
       destruct (Z.eqb_spec r3 1);
         [destruct (hw_read _ _ _ _ _) as [[r4 dst4] h4]; destruct (Z.eqb_spec r4 2)|].
       all: cbn [negb Z.eqb VEML7700_OK VEML7700_ERROR_I2C_TX VEML7700_ERROR_I2C_RX] in Hrun.
       all: apply pair_equal_spec in Hrun; destruct Hrun as [Hrun <-];
         apply pair_equal_spec in Hrun; destruct Hrun as [Hrun <-];
         apply pair_equal_spec in Hrun; destruct Hrun as [<- <-].
       all: try (exfalso; apply Hfail; reflexivity).
       all: split; [reflexivity|]; split; [reflexivity|];
         first [left; reflexivity | right; reflexivity]. }
  all: cbn [negb Z.eqb VEML7700_OK VEML7700_ERROR_I2C_TX VEML7700_ERROR_I2C_RX] in Hrun.
  all: apply pair_equal_spec in Hrun; destruct Hrun as [Hrun <-];
    apply pair_equal_spec in Hrun; destruct Hrun as [Hrun <-];
    apply pair_equal_spec in Hrun; destruct Hrun as [<- <-].
  all: split; [reflexivity|]; split; [reflexivity|];
    first [left; reflexivity | right; reflexivity].
Qed.

End Edge.

Lemma decoded_field_range (cfg lo width : Z) :
  0 <= lo -> 0 <= width ->
  0 <= Z.land (Z.shiftr cfg lo) (Z.ones width) < 2 ^ width.
Proof.
  intros Hlo Hwidth. rewrite Z.land_ones by lia.
  apply Z.mod_pos_bound. apply Z.pow_pos_nonneg; lia.
Qed.

(** For every value of the configuration register, the gain decoded from
    bits 11-12 is an enumerator, and the resolution for the decoded gain
    and integration time is exactly [0.0042f] times a power of two from
    [2^0] to [2^9], hence within the clamp bounds; a decoded integration
    time that is no enumerator counts as 100 ms. *)
Theorem decoded_resolution_exact (cfg : Z) :
  let gain := Z.land (Z.shiftr cfg 11) 0x03 in
  let it := Z.land (Z.shiftr cfg 6) 0x0F in
  In gain valid_gains
  /\ (exists e, veml7700_get_resolution gain it = S754_finite false 9019431 e
                /\ -31 <= e <= -22)
  /\ Binary32.leb resolution_min (veml7700_get_resolution gain it) = true
  /\ Binary32.leb (veml7700_get_resolution gain it) resolution_max = true
  /\ (~ In it valid_its ->
      veml7700_get_resolution gain it = veml7700_get_resolution gain VEML7700_IT_100MS).
Proof.
  intros gain it.
  pose proof (decoded_field_range cfg 11 2 ltac:(lia) ltac:(lia)) as Hg.
  pose proof (decoded_field_range cfg 6 4 ltac:(lia) ltac:(lia)) as Hi.
  change (Z.ones 2) with 3 in Hg. change (Z.ones 4) with 15 in Hi.
  fold gain in Hg. fold it in Hi. clearbody gain it.
  change (2 ^ 2) with 4 in Hg. change (2 ^ 4) with 16 in Hi.
  assert (Hgc : gain = 0 \/ gain = 1 \/ gain = 2 \/ gain = 3) by lia.
  assert (Hic : it = 0 \/ it = 1 \/ it = 2 \/ it = 3 \/ it = 4 \/ it = 5 \/ it = 6
                \/ it = 7 \/ it = 8 \/ it = 9 \/ it = 10 \/ it = 11 \/ it = 12
                \/ it = 13 \/ it = 14 \/ it = 15) by lia.
  clear Hg Hi.
  repeat (destruct Hgc as [->|Hgc]); try subst gain;
    repeat (destruct Hic as [->|Hic]); try subst it.
  all: split; [unfold valid_gains; cbn; tauto|].
  all: split; [eexists; split; [vm_compute; reflexivity|lia]|].
  all: split; [vm_compute; reflexivity|].
  all: split; [vm_compute; reflexivity|].
  all: intros Hnot; first [vm_compute; reflexivity
                          | exfalso; apply Hnot; unfold valid_its; cbn; tauto].
Qed.

Lemma bit0_set_bits (cache i : Z) :
  0 <= i < 16 ->
  Z.testbit (uint16 (Z.lor cache (Z.shiftl 1 0))) i
  = if (0 <=? i) && (i <? 0 + 1) then Z.testbit 1 (i - 0) else Z.testbit cache i.
Proof.
  intros Hi. unfold uint16. change 65536 with (2 ^ 16).
  rewrite Z.mod_pow2_bits_low, Z.lor_spec by lia.
  change (Z.shiftl 1 0) with (Z.ones 1). rewrite Z.testbit_ones by lia.
  destruct (Z.eq_dec i 0) as [->|Hne]; [cbn; apply orb_true_r|].
  replace (i <? 0 + 1) with false by (symmetry; apply Z.ltb_ge; lia).
  replace (i <? 1) with false by (symmetry; apply Z.ltb_ge; lia).
  rewrite !andb_false_r. apply orb_false_r.
Qed.

Lemma bit0_clear_bits (cache i : Z) :
  0 <= i < 16 ->
  Z.testbit (uint16 (Z.land cache (Z.lnot (Z.shiftl 1 0)))) i
  = if (0 <=? i) && (i <? 0 + 1) then Z.testbit 0 (i - 0) else Z.testbit cache i.
Proof.
  intros Hi. unfold uint16. change 65536 with (2 ^ 16).
  rewrite Z.mod_pow2_bits_low, Z.land_spec, Z.lnot_spec by lia.
  change (Z.shiftl 1 0) with (Z.ones 1). rewrite Z.testbit_ones by lia.
  destruct (Z.eq_dec i 0) as [->|Hne]; [cbn; apply andb_false_r|].
  replace (i <? 0 + 1) with false by (symmetry; apply Z.ltb_ge; lia).
  replace (i <? 1) with false by (symmetry; apply Z.ltb_ge; lia).
  rewrite !andb_false_r. apply andb_true_r.
Qed.

Lemma uint16_bits_eq (a b : Z) :
  0 <= a < 65536 -> 0 <= b < 65536 ->
  (forall i, 0 <= i < 16 -> Z.testbit a i = Z.testbit b i) -> a = b.
Proof.
  intros Ha Hb Hbits. apply Z.bits_inj'. intros i Hi.
  destruct (Z.lt_ge_cases i 16) as [Hlow|Hhigh].
  - apply Hbits. lia.
  - change 65536 with (2 ^ 16) in Ha, Hb.
    rewrite (small_value_high_bits a 16 i), (small_value_high_bits b 16 i) by lia.
    reflexivity.
Qed.

Lemma decoded_field_unchanged (c c' lo width : Z) :
  0 <= lo -> 0 <= width ->
  (forall i, lo <= i < lo + width -> Z.testbit c' i = Z.testbit c i) ->
  Z.land (Z.shiftr c' lo) (Z.ones width) = Z.land (Z.shiftr c lo) (Z.ones width).
Proof.
  intros Hlo Hwidth Hbits. apply Z.bits_inj'. intros i Hi.
  rewrite !bit_field_spec by lia.
  destruct (Z.ltb_spec i width); [|reflexivity].
  cbn [andb]. apply Hbits. lia.
Qed.

Lemma decoded_field_stored (c' lo width v : Z) :
  0 <= lo -> 0 <= width -> 0 <= v < 2 ^ width ->
  (forall i, lo <= i < lo + width -> Z.testbit c' i = Z.testbit v (i - lo)) ->
  Z.land (Z.shiftr c' lo) (Z.ones width) = v.
Proof.
  intros Hlo Hwidth Hv Hbits. apply Z.bits_inj'. intros i Hi.
  rewrite bit_field_spec by lia.
  destruct (Z.ltb_spec i width); cbn [andb].
  - rewrite Hbits by lia. f_equal. lia.
  - symmetry. apply (small_value_high_bits v width i); lia.
Qed.

Lemma shadow_field_bounds (c : veml7700_call) (lo width v : Z) :
  shadow_field c = Some (lo, width, v) -> 0 <= lo /\ 0 < width /\ lo + width <= 13.
Proof.
  destruct c; cbn; intros Hfield; try discriminate Hfield;
    injection Hfield as <- <- _; lia.
Qed.

Section Shadow.
Context {HW : Type} `{I2CHardware HW}.

(** What a call that rewrites a field of the configuration register does
    to a ready handle. *)
Lemma invoke_shadow
    (w : world HW) (s : veml7700_sensor_t) (c : veml7700_call) (lo width v : Z)
    (status : Z) (sensor' : option veml7700_sensor_t) (w' : world HW) :
  initialized s = true ->
  shadow_field c = Some (lo, width, v) ->
  0 <= v < 2 ^ width ->
  veml7700_invoke w (Some s) c = (status, sensor', w') ->
  exists s',
    sensor' = Some s'
    /\ initialized s' = true
    /\ i2c_port s' = i2c_port s
    /\ psm_cache s' = psm_cache s
    /\ 0 <= config_cache s' < 65536
    /\ (forall i, 0 <= i < 16 ->
          Z.testbit (config_cache s') i
          = if (lo <=? i) && (i <? lo + width)
            then Z.testbit v (i - lo) else Z.testbit (config_cache s) i)
    /\ (status = VEML7700_OK \/ status = VEML7700_ERROR_I2C_TX)
    /\ current_gain s'
       = match c with
         | Call_set_gain gain => if status =? VEML7700_OK then gain else current_gain s
         | _ => current_gain s
         end
    /\ current_it s'
       = match c with
         | Call_set_integration_time it =>
             if status =? VEML7700_OK then it else current_it s
         | _ => current_it s
         end
    /\ slept_ms w'
       = match c with
         | Call_power_on => if status =? VEML7700_OK then slept_ms w + 10 else slept_ms w
         | _ => slept_ms w
         end.
Proof.
  intros Hinit Hfield Hv Hrun.
  destruct c; try discriminate Hfield; cbn [shadow_field config_field] in Hfield;
    injection Hfield as <- <- Hval;
    cbv beta iota delta [veml7700_invoke] in Hrun;
    unfold veml7700_set_gain, veml7700_set_integration_time,
           veml7700_set_persistence, veml7700_enable_interrupt,
           veml7700_power_on, veml7700_shutdown in Hrun;
    rewrite Hinit in Hrun; cbv beta iota zeta delta [negb] in Hrun;
    match type of Hrun with
    | context [veml7700_write_reg ?w0 (Some ?s0) ?reg ?d] =>
        rewrite (write_reg_ready w0 s0 reg d) in Hrun
          by (try destruct enable; exact Hinit);
        destruct (hw_write (hw w0) (i2c_port s0) VEML7700_I2C_ADDRESS
                           (write_frame reg d) false) as [r h]
    end;
    destruct (Z.eqb_spec r 3) as [Hr|Hr];
    cbv beta iota delta [Z.eqb VEML7700_OK VEML7700_ERROR_I2C_TX] in Hrun;
    apply pair_equal_spec in Hrun; destruct Hrun as [Hrun <-];
    apply pair_equal_spec in Hrun; destruct Hrun as [<- <-];
    (eexists; split; [reflexivity|]).
  all: try (destruct enable).
  all: subst v.
  all: unfold set_current_gain, set_current_it, set_config_cache, after_call, sleep_ms;
    cbn [config_cache current_gain current_it i2c_port psm_cache initialized
         trace slept_ms].
  all: (split; [exact Hinit|]); (split; [reflexivity|]); (split; [reflexivity|]).
  all: (split; [apply uint16_range|]).
  all: (split;
        [intros i Hi;
         first [ apply bit_set_bits; assumption
               | apply bit_clear_bits; assumption
               | apply bit0_set_bits; assumption
               | apply bit0_clear_bits; assumption
               | match goal with
                 | |- context [Z.shiftl (uint16 ?x) _] =>
                     is_var x;
                     replace (uint16 x) with x
                       by (unfold uint16; rewrite Z.mod_small;
                           [reflexivity
                           |change (2 ^ 2) with 4 in Hv; change (2 ^ 4) with 16 in Hv; lia])
                 end;
                 first [ apply (field_store_bits (config_cache s) _ 11 2 i)
                       | apply (field_store_bits (config_cache s) _ 6 4 i)
                       | apply (field_store_bits (config_cache s) _ 4 2 i) ];
                 first [lia | assumption] ]|]).
  all: (split; [first [left; reflexivity | right; reflexivity]|]).
  all: repeat split; reflexivity.
Qed.

End Shadow.

Section Composition.
Context {HW : Type} `{I2CHardware HW}.

(** Two calls that rewrite disjoint fields of the configuration register
    leave the same shadow in either order, whatever the bus answers to
    any of the four register writes. *)
Theorem shadow_updates_commute
    (w wa wb wc w1 w12 w2 w21 : world HW) (s : veml7700_sensor_t)
    (c1 c2 : veml7700_call) (lo1 width1 v1 lo2 width2 v2 : Z)
    (st1 st12 st2 st21 : Z) (sensor1 sensor12 sensor2 sensor21 : option veml7700_sensor_t) :
  initialized s = true ->
  shadow_field c1 = Some (lo1, width1, v1) -> 0 <= v1 < 2 ^ width1 ->
  shadow_field c2 = Some (lo2, width2, v2) -> 0 <= v2 < 2 ^ width2 ->
  lo1 + width1 <= lo2 \/ lo2 + width2 <= lo1 ->
  veml7700_invoke w (Some s) c1 = (st1, sensor1, w1) ->
  veml7700_invoke wa sensor1 c2 = (st12, sensor12, w12) ->
  veml7700_invoke wb (Some s) c2 = (st2, sensor2, w2) ->
  veml7700_invoke wc sensor2 c1 = (st21, sensor21, w21) ->
  exists s12 s21,
    sensor12 = Some s12 /\ sensor21 = Some s21
    /\ config_cache s12 = config_cache s21.
Proof.
  intros Hinit Hf1 Hv1 Hf2 Hv2 Hdisjoint Hrun1 Hrun12 Hrun2 Hrun21.
  pose proof (shadow_field_bounds c1 _ _ _ Hf1) as Hb1.
  pose proof (shadow_field_bounds c2 _ _ _ Hf2) as Hb2.
  destruct (invoke_shadow w s c1 _ _ _ _ _ _ Hinit Hf1 Hv1 Hrun1)
    as [s1 [-> [Hinit1 [_ [_ [_ [Hbits1 _]]]]]]].
  destruct (invoke_shadow wa s1 c2 _ _ _ _ _ _ Hinit1 Hf2 Hv2 Hrun12)
    as [s12 [-> [_ [_ [_ [Hrange12 [Hbits12 _]]]]]]].
  destruct (invoke_shadow wb s c2 _ _ _ _ _ _ Hinit Hf2 Hv2 Hrun2)
    as [s2 [-> [Hinit2 [_ [_ [_ [Hbits2 _]]]]]]].
  destruct (invoke_shadow wc s2 c1 _ _ _ _ _ _ Hinit2 Hf1 Hv1 Hrun21)
    as [s21 [-> [_ [_ [_ [Hrange21 [Hbits21 _]]]]]]].
  exists s12, s21. split; [reflexivity|]. split; [reflexivity|].
  apply uint16_bits_eq; try assumption.
  intros i Hi. rewrite Hbits12, Hbits21, Hbits1, Hbits2 by assumption.
  destruct (Z.leb_spec lo1 i); destruct (Z.ltb_spec i (lo1 + width1));
    destruct (Z.leb_spec lo2 i); destruct (Z.ltb_spec i (lo2 + width2));
    cbn [andb]; try reflexivity; lia.
Qed.

(** [veml7700_shutdown] followed by [veml7700_power_on] on a ready handle:
    bit 0 of the shadow is set, then cleared, and no other bit changes, so
    a shadow whose shutdown bit was clear is restored; the cached gain and
    integration time are kept; only a successful [veml7700_power_on]
    sleeps, for 10 ms. All of this holds whatever the bus answers. *)
Theorem shutdown_then_power_on_restores_shadow
    (w wa w1 w2 : world HW) (s : veml7700_sensor_t) (st1 st2 : Z)
    (sensor1 sensor2 : option veml7700_sensor_t) :
  initialized s = true ->
  veml7700_invoke w (Some s) Call_shutdown = (st1, sensor1, w1) ->
  veml7700_invoke wa sensor1 Call_power_on = (st2, sensor2, w2) ->
  exists s1 s2,
    sensor1 = Some s1 /\ sensor2 = Some s2
    /\ Z.testbit (config_cache s1) 0 = true
    /\ Z.testbit (config_cache s2) 0 = false
    /\ (forall i, 1 <= i < 16 ->
          Z.testbit (config_cache s2) i = Z.testbit (config_cache s) i)
    /\ (0 <= config_cache s < 65536 -> Z.testbit (config_cache s) 0 = false ->
        config_cache s2 = config_cache s)
    /\ current_gain s2 = current_gain s /\ current_it s2 = current_it s
    /\ slept_ms w1 = slept_ms w
    /\ slept_ms w2 = (if st2 =? VEML7700_OK then slept_ms wa + 10 else slept_ms wa).
Proof.
  intros Hinit Hrun1 Hrun2.
  destruct (invoke_shadow w s Call_shutdown 0 1 1 _ _ _ Hinit eq_refl ltac:(lia) Hrun1)
    as [s1 [-> [Hinit1 [_ [_ [_ [Hbits1 [_ [Hg1 [Hi1 Hs1]]]]]]]]]].
  destruct (invoke_shadow wa s1 Call_power_on 0 1 0 _ _ _ Hinit1 eq_refl ltac:(lia) Hrun2)
    as [s2 [-> [_ [_ [_ [Hrange2 [Hbits2 [_ [Hg2 [Hi2 Hs2]]]]]]]]]].
  exists s1, s2. split; [reflexivity|]. split; [reflexivity|].
  assert (Hother : forall i, 1 <= i < 16 ->
                     Z.testbit (config_cache s2) i = Z.testbit (config_cache s) i).
  { intros i Hi. rewrite Hbits2, Hbits1 by lia.
    destruct (Z.leb_spec 0 i); destruct (Z.ltb_spec i (0 + 1)); cbn [andb];
      try reflexivity; lia. }
  split; [rewrite Hbits1 by lia; reflexivity|].
  split; [rewrite Hbits2 by lia; reflexivity|].
  split; [exact Hother|].
  split.
  { intros Hrange Hclear. apply uint16_bits_eq; try assumption.
    intros i Hi. destruct (Z.eq_dec i 0) as [->|Hne].
    - rewrite Hbits2 by lia. rewrite Hclear. reflexivity.
    - apply Hother. lia. }
  split; [congruence|]. split; [congruence|]. split; assumption.
Qed.

(** A successful call with enumerator arguments on a ready handle whose
    cached gain and integration time agree with the shadow leaves a ready
    handle for which they still agree. *)
Theorem successful_call_keeps_shadow_consistent
    (w : world HW) (s : veml7700_sensor_t) (c : veml7700_call)
    (sensor' : option veml7700_sensor_t) (w' : world HW) :
  initialized s = true -> shadow_consistent s -> valid_arguments c ->
  veml7700_invoke w (Some s) c = (VEML7700_OK, sensor', w') ->
  exists s', sensor' = Some s' /\ initialized s' = true /\ shadow_consistent s'.
Proof.
  intros Hinit [Hgain Hit] Hvalid Hrun.
  change 0x03 with (Z.ones 2) in Hgain. change 0x0F with (Z.ones 4) in Hit.
  destruct (shadow_field c) as [[[lo width] v]|] eqn:Hfield.
  - assert (Hv : 0 <= v < 2 ^ width).
    { destruct c; try discriminate Hfield; cbn in Hfield, Hvalid;
        injection Hfield as <- <- <-; try destruct enable; cbn; lia. }
    destruct (invoke_shadow w s c _ _ _ _ _ _ Hinit Hfield Hv Hrun)
      as [s' [-> [Hinit' [_ [_ [_ [Hbits [_ [Hg [Hi _]]]]]]]]]].
    exists s'. split; [reflexivity|]. split; [exact Hinit'|].
    unfold shadow_consistent.
    change 0x03 with (Z.ones 2). change 0x0F with (Z.ones 4).
    rewrite Hg, Hi.
    destruct c; try discriminate Hfield; cbn in Hfield, Hvalid;
      injection Hfield as <- <- <-; cbn [Z.eqb VEML7700_OK];
      (split;
       [first [ rewrite Hgain; symmetry; apply decoded_field_unchanged; [lia|lia|];
                intros i Hi'; rewrite Hbits by lia;
                destruct (Z.leb_spec 0 i); destruct (Z.leb_spec 1 i);
                destruct (Z.leb_spec 4 i); destruct (Z.leb_spec 6 i);
                try destruct (Z.ltb_spec i (0 + 1)); try destruct (Z.ltb_spec i (1 + 1));
                try destruct (Z.ltb_spec i (4 + 2)); try destruct (Z.ltb_spec i (6 + 4));
                cbn [andb]; try reflexivity; lia
              | symmetry; apply decoded_field_stored; [lia|lia|cbn; lia|];
                intros i Hi'; rewrite Hbits by lia;
                destruct (Z.leb_spec 11 i); destruct (Z.ltb_spec i (11 + 2));
                cbn [andb]; try reflexivity; lia ]
       |first [ rewrite Hit; symmetry; apply decoded_field_unchanged; [lia|lia|];
                intros i Hi'; rewrite Hbits by lia;
                destruct (Z.leb_spec 0 i); destruct (Z.leb_spec 1 i);
                destruct (Z.leb_spec 4 i); destruct (Z.leb_spec 11 i);
                try destruct (Z.ltb_spec i (0 + 1)); try destruct (Z.ltb_spec i (1 + 1));
                try destruct (Z.ltb_spec i (4 + 2)); try destruct (Z.ltb_spec i (11 + 2));
                cbn [andb]; try reflexivity; lia
              | symmetry; apply decoded_field_stored; [lia|lia|cbn; lia|];
                intros i Hi'; rewrite Hbits by lia;
                destruct (Z.leb_spec 6 i); destruct (Z.ltb_spec i (6 + 4));
                cbn [andb]; try reflexivity; lia ]]).
  - assert (Hsame : forall st (w1 : world HW),
              (st, Some s, w1) = (VEML7700_OK, sensor', w') ->
              exists s', sensor' = Some s' /\ initialized s' = true /\ shadow_consistent s').
    { intros st w1 Heq. apply pair_equal_spec in Heq. destruct Heq as [Heq _].
      apply pair_equal_spec in Heq. destruct Heq as [_ <-].
      exists s. split; [reflexivity|]. split; [exact Hinit|]. split; assumption. }
    assert (Hpsm : forall st psm (w1 : world HW),
              (st, Some (set_psm_cache psm s), w1) = (VEML7700_OK, sensor', w') ->
              exists s', sensor' = Some s' /\ initialized s' = true /\ shadow_consistent s').
    { intros st psm w1 Heq. apply pair_equal_spec in Heq. destruct Heq as [Heq _].
      apply pair_equal_spec in Heq. destruct Heq as [_ <-].
      eexists. split; [reflexivity|]. split; [exact Hinit|]. split; assumption. }
    destruct c; try discriminate Hfield; cbn [veml7700_invoke] in Hrun.
    + destruct (veml7700_read_als w (Some s) als_value) as [[st out] w1].
      exact (Hsame _ _ Hrun).
    + destruct (veml7700_read_white w (Some s) white_value) as [[st out] w1].
      exact (Hsame _ _ Hrun).
    + destruct lux_value as [lux0|].
      * destruct (veml7700_read_lux w (Some s) (Some lux0)) as [[[st sens] lux] w1] eqn:Hlux.
        apply pair_equal_spec in Hrun. destruct Hrun as [Hrun _].
        apply pair_equal_spec in Hrun. destruct Hrun as [-> ->].
        rewrite (read_lux_ready w s lux0 Hinit) in Hlux.
        destruct (veml7700_read_reg w (Some s) VEML7700_REG_ALS (Some 0))
          as [[st1 out1] wr1].
        destruct (negb (st1 =? VEML7700_OK)) eqn:Hst1.
        { apply pair_equal_spec in Hlux. destruct Hlux as [Hlux _].
          apply pair_equal_spec in Hlux. destruct Hlux as [Hlux _].
          apply pair_equal_spec in Hlux. destruct Hlux as [Hst _].
          subst st1. discriminate Hst1. }
        destruct (veml7700_read_reg wr1 (Some s) VEML7700_REG_ALS_CONF
                                    (Some (config_cache s))) as [[st2 out2] wr2].
        destruct (negb (st2 =? VEML7700_OK)) eqn:Hst2.
        { apply pair_equal_spec in Hlux. destruct Hlux as [Hlux _].
          apply pair_equal_spec in Hlux. destruct Hlux as [Hlux _].
          apply pair_equal_spec in Hlux. destruct Hlux as [Hst _].
          subst st2. discriminate Hst2. }
        cbv zeta in Hlux.
        apply pair_equal_spec in Hlux. destruct Hlux as [Hlux _].
        apply pair_equal_spec in Hlux. destruct Hlux as [Hlux _].
        apply pair_equal_spec in Hlux. destruct Hlux as [_ <-].
        eexists. split; [reflexivity|]. split; [reflexivity|].
        split; reflexivity.
      * unfold veml7700_read_lux in Hrun. rewrite Hinit in Hrun. discriminate Hrun.
    + unfold veml7700_set_high_threshold, not_ready in Hrun. rewrite Hinit in Hrun.
      cbn [negb] in Hrun.
      destruct (veml7700_write_reg w (Some s) VEML7700_REG_ALS_WH (uint16 threshold))
        as [st w1].
      exact (Hsame _ _ Hrun).
    + unfold veml7700_set_low_threshold, not_ready in Hrun. rewrite Hinit in Hrun.
      cbn [negb] in Hrun.
      destruct (veml7700_write_reg w (Some s) VEML7700_REG_ALS_WL (uint16 threshold))
        as [st w1].
      exact (Hsame _ _ Hrun).
    + destruct (veml7700_read_interrupt_status w (Some s) interrupt_status)
        as [[st out] w1].
      exact (Hsame _ _ Hrun).
    + unfold veml7700_enable_power_saving in Hrun. rewrite Hinit in Hrun.
      cbn [negb] in Hrun.
      destruct enable;
        match type of Hrun with
        | context [veml7700_write_reg ?w0 ?s0 ?reg ?d] =>
            destruct (veml7700_write_reg w0 s0 reg d) as [st w1]
        end; exact (Hpsm _ _ _ Hrun).
    + unfold veml7700_set_power_saving_mode in Hrun. rewrite Hinit in Hrun.
      cbn [negb] in Hrun.
      match type of Hrun with
      | context [veml7700_write_reg ?w0 ?s0 ?reg ?d] =>
          destruct (veml7700_write_reg w0 s0 reg d) as [st w1]
      end.
      unfold set_psm_cache at 1 in Hrun. cbn [psm_cache i2c_port config_cache initialized
                                               current_gain current_it] in Hrun.
      exact (Hpsm _ _ _ Hrun).
    + destruct (veml7700_read_device_id w (Some s) device_id) as [[st out] w1].
      exact (Hsame _ _ Hrun).
Qed.

End Composition.

Section Psm.
Context {HW : Type} `{I2CHardware HW}.

(** The two power-saving calls on a ready handle, for an argument that
    fits its field: [veml7700_enable_power_saving] rewrites bit 0 and
    [veml7700_set_power_saving_mode] bits 1-2 of the power-saving shadow,
    each leaving the other bits, the configuration shadow and the cached
    gain and integration time alone; the shadow is updated before the
    single register write, which carries it, and is kept whatever the
    write returns. *)
Theorem power_saving_shadow_update
    (w : world HW) (s : veml7700_sensor_t) (c : veml7700_call) (lo width v : Z)
    (status : Z) (sensor' : option veml7700_sensor_t) (w' : world HW) :
  initialized s = true ->
  psm_field c = Some (lo, width, v) ->
  0 <= v < 2 ^ width ->
  veml7700_invoke w (Some s) c = (status, sensor', w') ->
  exists s',
    sensor' = Some s'
    /\ config_cache s' = config_cache s
    /\ current_gain s' = current_gain s
    /\ current_it s' = current_it s
    /\ 0 <= psm_cache s' < 65536
    /\ (forall i, 0 <= i < 16 ->
          Z.testbit (psm_cache s') i
          = if (lo <=? i) && (i <? lo + width)
            then Z.testbit v (i - lo) else Z.testbit (psm_cache s) i)
    /\ trace w' = trace w ++ [I2C_write (i2c_port s) VEML7700_I2C_ADDRESS
                                (write_frame VEML7700_REG_POWER_SAVING (psm_cache s'))
                                false]
    /\ (status = VEML7700_OK \/ status = VEML7700_ERROR_I2C_TX).
Proof.
  intros Hinit Hfield Hv Hrun.
  destruct c; try discriminate Hfield; cbn [psm_field] in Hfield;
    injection Hfield as <- <- Hval;
    cbv beta iota delta [veml7700_invoke] in Hrun;
    unfold veml7700_enable_power_saving, veml7700_set_power_saving_mode in Hrun;
    rewrite Hinit in Hrun; cbv beta iota zeta delta [negb] in Hrun;
    match type of Hrun with
    | context [veml7700_write_reg ?w0 (Some ?s0) ?reg ?d] =>
        rewrite (write_reg_ready w0 s0 reg d) in Hrun
          by (try destruct enable; exact Hinit);
        destruct (hw_write (hw w0) (i2c_port s0) VEML7700_I2C_ADDRESS
                           (write_frame reg d) false) as [r h]
    end;
    destruct (Z.eqb_spec r 3) as [Hr|Hr];
    apply pair_equal_spec in Hrun; destruct Hrun as [Hrun <-];
    apply pair_equal_spec in Hrun; destruct Hrun as [<- <-];
    (eexists; split; [reflexivity|]).
  all: try (destruct enable).
  all: subst v.
  all: unfold set_psm_cache, after_call;
    cbn [config_cache current_gain current_it i2c_port psm_cache initialized trace].
  all: (split; [reflexivity|]); (split; [reflexivity|]); (split; [reflexivity|]).
  all: (split; [apply uint16_range|]).
  all: (split;
        [intros i Hi;
         first [ apply bit0_set_bits; assumption
               | apply bit0_clear_bits; assumption
               | match goal with
                 | |- context [Z.shiftl (uint16 ?x) _] =>
                     is_var x;
                     replace (uint16 x) with x
                       by (unfold uint16; rewrite Z.mod_small;
                           [reflexivity|change (2 ^ 2) with 4 in Hv; lia])
                 end;
                 apply (field_store_bits (psm_cache s) _ 1 2 i);
                 first [lia | assumption] ]|]).
  all: (split; [reflexivity|]).
  all: first [left; reflexivity | right; reflexivity].
Qed.

(** No call on a ready handle makes it unready or changes its port,
    whatever the bus answers: a transport failure is not sticky, the call
    can be repeated. *)
Theorem call_keeps_handle_ready
    (w : world HW) (s : veml7700_sensor_t) (c : veml7700_call) :
  initialized s = true ->
  exists s',
    snd (fst (veml7700_invoke w (Some s) c)) = Some s'
    /\ initialized s' = true
    /\ i2c_port s' = i2c_port s.
Proof.
  intros Hinit.
  assert (Hsame : exists s', Some s = Some s' /\ initialized s' = true
                             /\ i2c_port s' = i2c_port s).
  { exists s. repeat split. exact Hinit. }
  destruct c; cbn [veml7700_invoke].
  3: { destruct lux_value as [lux0|].
       - rewrite (read_lux_ready w s lux0 Hinit).
         destruct (veml7700_read_reg w (Some s) VEML7700_REG_ALS (Some 0))
           as [[st1 out1] w1].
         destruct (negb (st1 =? VEML7700_OK)); [exact Hsame|].
         destruct (veml7700_read_reg w1 (Some s) VEML7700_REG_ALS_CONF
                                     (Some (config_cache s))) as [[st2 out2] w2].
         destruct (negb (st2 =? VEML7700_OK)).
         + destruct out2; cbn; eexists; repeat split; assumption.
         + cbn. eexists. repeat split.
       - unfold veml7700_read_lux. rewrite Hinit. exact Hsame. }
  all: unfold veml7700_set_gain, veml7700_set_integration_time,
         veml7700_set_persistence, veml7700_enable_interrupt,
         veml7700_set_high_threshold, veml7700_set_low_threshold,
         veml7700_enable_power_saving, veml7700_set_power_saving_mode,
         veml7700_power_on, veml7700_shutdown, not_ready;
    rewrite ?Hinit; cbn [negb];
    try match goal with
        | |- context [veml7700_write_reg ?w0 ?s0 ?reg ?d] =>
            destruct (veml7700_write_reg w0 s0 reg d) as [st w1]
        end;
    try match goal with
        | |- context [if ?b then _ else _] => destruct b
        end.
  all: try exact Hsame.
  all: try (match goal with
            | |- context [veml7700_read_als ?a ?b ?d] =>
                destruct (veml7700_read_als a b d) as [[? ?] ?]
            | |- context [veml7700_read_white ?a ?b ?d] =>
                destruct (veml7700_read_white a b d) as [[? ?] ?]
            | |- context [veml7700_read_interrupt_status ?a ?b ?d] =>
                destruct (veml7700_read_interrupt_status a b d) as [[? ?] ?]
            | |- context [veml7700_read_device_id ?a ?b ?d] =>
                destruct (veml7700_read_device_id a b d) as [[? ?] ?]
            end; exact Hsame).
  all: cbn; eexists; repeat split; assumption.
Qed.
End Psm.

(** *** Concrete runs on the scripted bus *)

(** Device ID 0xC481 and four acknowledged register writes. *)
Lemma init_success_postcondition_witness :
  let s := mkSensor None 0x1234 0x0007 false VEML7700_GAIN_2 VEML7700_IT_25MS in
  let w := scripted_world
             [(1, []); (2, [0x81; 0xC4]); (3, []); (3, []); (3, []); (3, [])] in
  fst (veml7700_init w (Some s) (Some 1) 4 5 100000)
  = (VEML7700_OK, Some (mkSensor (Some 1) 0 0 true VEML7700_GAIN_1 VEML7700_IT_100MS))
  /\ slept_ms (snd (veml7700_init w (Some s) (Some 1) 4 5 100000)) = slept_ms w + 10.
Proof.
  intros s w.
  destruct (veml7700_init w (Some s) (Some 1) 4 5 100000) as [[status sensor'] w'] eqn:Hrun.
  assert (Hok : status = VEML7700_OK)
    by (vm_compute in Hrun; injection Hrun as <- _ _; reflexivity).
  subst status.
  destruct (init_success_postcondition w s 1 4 5 100000 sensor' w' Hrun)
    as [-> [_ [Hslept _]]].
  split; [reflexivity|exact Hslept].
Defined.

(** The ID is accepted and the first register write is not acknowledged. *)
Lemma init_failure_leaves_handle_unready_witness :
  let s := mkSensor None 0x1234 0x0007 true VEML7700_GAIN_2 VEML7700_IT_25MS in
  let w := scripted_world [(1, []); (2, [0x81; 0xC4]); (PICO_ERROR_GENERIC, [])] in
  fst (veml7700_init w (Some s) (Some 1) 4 5 100000)
  = (VEML7700_ERROR_I2C_TX,
     Some (mkSensor (Some 1) 0 0x0007 false VEML7700_GAIN_1 VEML7700_IT_100MS))
  /\ veml7700_invoke w (snd (fst (veml7700_init w (Some s) (Some 1) 4 5 100000)))
                     Call_shutdown
     = (VEML7700_ERROR_CONFIG, snd (fst (veml7700_init w (Some s) (Some 1) 4 5 100000)), w).
Proof.
  intros s w.
  destruct (veml7700_init w (Some s) (Some 1) 4 5 100000) as [[status sensor'] w'] eqn:Hrun.
  assert (Hfail : status <> VEML7700_OK) by (vm_compute in Hrun; vm_compute; congruence).
  destruct (init_failure_leaves_handle_unready w s 1 4 5 100000 status sensor' w' Hrun Hfail)
    as [_ [s' [Hs [_ [_ [_ [_ Hreject]]]]]]].
  split; [vm_compute in Hrun; injection Hrun as <- <- _; reflexivity|].
  apply Hreject.
Defined.

Lemma null_output_rejected_without_bus_traffic_witness :
  let w := scripted_world [(1, []); (2, [0x10; 0x27])] in
  (initialized ready_sensor = true /\ null_output (Call_read_white None) = true)
  /\ veml7700_invoke w (Some ready_sensor) (Call_read_white None)
     = (VEML7700_ERROR_INVALID_ARG, Some ready_sensor, w).
Proof.
  intros w. split; [split; reflexivity|].
  apply (null_output_rejected_without_bus_traffic w ready_sensor (Call_read_white None));
    reflexivity.
Defined.

(** The device echoes the payload of a write of 0x1234. *)
Lemma register_value_round_trip_witness :
  let w := scripted_world [(1, []); (2, [0x34; 0x12])] in
  tl (write_frame VEML7700_REG_ALS_WH 0x1234) = [0x34; 0x12]
  /\ fst (veml7700_read_reg w (Some ready_sensor) VEML7700_REG_ALS_WH (Some 0))
     = (VEML7700_OK, Some (0x1234 mod 65536)).
Proof.
  intros w. split; [reflexivity|].
  apply (register_value_round_trip w ready_sensor VEML7700_REG_ALS_WH VEML7700_REG_ALS_WH
           0x1234 0 [(2, [0x34; 0x12])] []); reflexivity.
Defined.

(** The read phase of the ALS register delivers one byte only. *)
Lemma read_lux_failure_reports_minus_one_witness :
  let w := scripted_world [(1, []); (1, [0x10])] in
  veml7700_read_lux w (Some ready_sensor) (Some (Binary32.of_Z 0))
  = (VEML7700_ERROR_I2C_RX, Some ready_sensor, Some (Binary32.of_Z (-1)),
     mkWorld [] [I2C_write (Some 0) VEML7700_I2C_ADDRESS [VEML7700_REG_ALS] true;
                 I2C_read (Some 0) VEML7700_I2C_ADDRESS 2 false] 0)
  /\ Some (Binary32.of_Z (-1)) = Some (Binary32.of_Z (-1))
  /\ Some ready_sensor = Some ready_sensor.
Proof.
  intros w.
  assert (Hrun : veml7700_read_lux w (Some ready_sensor) (Some (Binary32.of_Z 0))
                 = (VEML7700_ERROR_I2C_RX, Some ready_sensor, Some (Binary32.of_Z (-1)),
                    mkWorld [] [I2C_write (Some 0) VEML7700_I2C_ADDRESS [VEML7700_REG_ALS] true;
                                I2C_read (Some 0) VEML7700_I2C_ADDRESS 2 false] 0))
    by (vm_compute; reflexivity).
  split; [exact Hrun|].
  assert (Hfail : VEML7700_ERROR_I2C_RX <> VEML7700_OK) by (vm_compute; discriminate).
  destruct (read_lux_failure_reports_minus_one w ready_sensor _ _ _ _ _ eq_refl Hrun Hfail)
    as [Hlux [Hsensor _]].
  split; assumption.
Defined.

(** Gain x2 then 800 ms against 800 ms then gain x2, with the second
    write of the first order and the first write of the second failing. *)
Lemma shadow_updates_commute_witness :
  let c1 := Call_set_gain VEML7700_GAIN_2 in
  let c2 := Call_set_integration_time VEML7700_IT_800MS in
  let w := scripted_world [(3, []); (PICO_ERROR_GENERIC, [])] in
  let wb := scripted_world [(PICO_ERROR_GENERIC, []); (3, [])] in
  exists s12 s21 w12 w21 st1 st12 st2 st21 s1 s2 w1 w2,
    veml7700_invoke w (Some ready_sensor) c1 = (st1, Some s1, w1)
    /\ veml7700_invoke w1 (Some s1) c2 = (st12, Some s12, w12)
    /\ veml7700_invoke wb (Some ready_sensor) c2 = (st2, Some s2, w2)
    /\ veml7700_invoke w2 (Some s2) c1 = (st21, Some s21, w21)
    /\ config_cache s12 = 0x08C0
    /\ config_cache s12 = config_cache s21.
Proof.
  intros c1 c2 w wb.
  destruct (veml7700_invoke w (Some ready_sensor) c1) as [[st1 sensor1] w1] eqn:Hrun1.
  destruct (veml7700_invoke w1 sensor1 c2) as [[st12 sensor12] w12] eqn:Hrun12.
  destruct (veml7700_invoke wb (Some ready_sensor) c2) as [[st2 sensor2] w2] eqn:Hrun2.
  destruct (veml7700_invoke w2 sensor2 c1) as [[st21 sensor21] w21] eqn:Hrun21.
  destruct (shadow_updates_commute
              w w1 wb w2 w1 w12 w2 w21 ready_sensor c1 c2 11 2 VEML7700_GAIN_2
              6 4 VEML7700_IT_800MS st1 st12 st2 st21 sensor1 sensor12 sensor2 sensor21)
    as [s12 [s21 [Hs12 [Hs21 Hsame]]]];
    try reflexivity; try assumption;
    try (unfold VEML7700_GAIN_2, VEML7700_IT_800MS; lia).
  subst sensor12 sensor21.
  vm_compute in Hrun1. injection Hrun1 as <- <- <-.
  vm_compute in Hrun2. injection Hrun2 as <- <- <-.
  exists s12, s21, w12, w21.
  do 8 eexists.
  split; [vm_compute; reflexivity|]. split; [exact Hrun12|].
  split; [vm_compute; reflexivity|]. split; [exact Hrun21|].
  split; [|exact Hsame].
  vm_compute in Hrun12. injection Hrun12 as _ <- _. reflexivity.
Defined.

(** Shutdown acknowledged, power-on not acknowledged. *)
Lemma shutdown_then_power_on_restores_shadow_witness :
  let s := mkSensor (Some 0) 0x08C0 0 true VEML7700_GAIN_2 VEML7700_IT_800MS in
  let w := scripted_world [(3, []); (PICO_ERROR_GENERIC, [])] in
  exists st1 s1 w1 st2 s2 w2,
    veml7700_invoke w (Some s) Call_shutdown = (st1, Some s1, w1)
    /\ veml7700_invoke w1 (Some s1) Call_power_on = (st2, Some s2, w2)
    /\ config_cache s1 = 0x08C1
    /\ config_cache s2 = config_cache s.
Proof.
  intros s w.
  destruct (veml7700_invoke w (Some s) Call_shutdown) as [[st1 sensor1] w1] eqn:Hrun1.
  destruct (veml7700_invoke w1 sensor1 Call_power_on) as [[st2 sensor2] w2] eqn:Hrun2.
  destruct (shutdown_then_power_on_restores_shadow
              w w1 w1 w2 s st1 st2 sensor1 sensor2 eq_refl Hrun1 Hrun2)
    as [s1 [s2 [-> [-> [_ [_ [_ [Hrestore _]]]]]]]].
  exists st1, s1, w1, st2, s2, w2.
  split; [reflexivity|]. split; [exact Hrun2|].
  split; [vm_compute in Hrun1; injection Hrun1 as _ <- _; reflexivity|].
  apply Hrestore; [cbn; lia|reflexivity].
Defined.

(** An acknowledged change of gain on the handle that [veml7700_init]
    leaves. *)
Lemma successful_call_keeps_shadow_consistent_witness :
  let w := scripted_world [(3, [])] in
  (initialized ready_sensor = true /\ shadow_consistent ready_sensor
   /\ valid_arguments (Call_set_gain VEML7700_GAIN_1_4))
  /\ exists s' w',
       veml7700_invoke w (Some ready_sensor) (Call_set_gain VEML7700_GAIN_1_4)
       = (VEML7700_OK, Some s', w')
       /\ initialized s' = true /\ shadow_consistent s'.
Proof.
  intros w.
  assert (Hcons : shadow_consistent ready_sensor) by (split; reflexivity).
  assert (Hvalid : valid_arguments (Call_set_gain VEML7700_GAIN_1_4))
    by (cbn; unfold VEML7700_GAIN_1_4; lia).
  split; [split; [reflexivity|split; assumption]|].
  destruct (veml7700_invoke w (Some ready_sensor) (Call_set_gain VEML7700_GAIN_1_4))
    as [[status sensor'] w'] eqn:Hrun.
  assert (Hok : status = VEML7700_OK)
    by (vm_compute in Hrun; injection Hrun as <- _ _; reflexivity).
  subst status.
  destruct (successful_call_keeps_shadow_consistent
              w ready_sensor _ sensor' w' eq_refl Hcons Hvalid Hrun)
    as [s' [-> [Hinit' Hcons']]].
  exists s', w'. split; [reflexivity|]. split; assumption.
Defined.

(** Power-saving mode 3 on a handle with power saving enabled, the write
    failing. *)
Lemma power_saving_shadow_update_witness :
  let s := mkSensor (Some 0) 0 0x0001 true VEML7700_GAIN_1 VEML7700_IT_100MS in
  let w := scripted_world [(PICO_ERROR_GENERIC, [])] in
  exists status s' w',
    veml7700_invoke w (Some s) (Call_set_power_saving_mode VEML7700_PSM_3)
    = (status, Some s', w')
    /\ status = VEML7700_ERROR_I2C_TX
    /\ psm_cache s' = 0x0005
    /\ Z.testbit (psm_cache s') 0 = Z.testbit (psm_cache s) 0.
Proof.
  intros s w.
  destruct (veml7700_invoke w (Some s) (Call_set_power_saving_mode VEML7700_PSM_3))
    as [[status sensor'] w'] eqn:Hrun.
  destruct (power_saving_shadow_update
              w s (Call_set_power_saving_mode VEML7700_PSM_3) 1 2 VEML7700_PSM_3
              status sensor' w' eq_refl eq_refl ltac:(unfold VEML7700_PSM_3; lia) Hrun)
    as [s' [-> [_ [_ [_ [_ [Hbits _]]]]]]].
  exists status, s', w'. split; [reflexivity|].
  split; [vm_compute in Hrun; injection Hrun as <- _ _; reflexivity|].
  split; [vm_compute in Hrun; injection Hrun as _ <- _; reflexivity|].
  rewrite (Hbits 0) by lia. reflexivity.
Defined.

(** A failed change of gain leaves the handle usable. *)
Lemma call_keeps_handle_ready_witness :
  let w := scripted_world [(PICO_ERROR_GENERIC, [])] in
  initialized ready_sensor = true
  /\ exists s',
       snd (fst (veml7700_invoke w (Some ready_sensor) (Call_set_gain VEML7700_GAIN_2)))
       = Some s'
       /\ initialized s' = true /\ i2c_port s' = i2c_port ready_sensor.
Proof.
  intros w. split; [reflexivity|].
  apply (call_keeps_handle_ready w ready_sensor (Call_set_gain VEML7700_GAIN_2)).
  reflexivity.
Defined.

End VEML7700_Operation_Properties.
